(** * Announcement endpoints of the school management API

    A shallow embedding of [src/backend/routers/announcements.py]:
    the date parser, the serializer, the teacher check and the five
    handlers (list active, list all, create, update, delete), followed by
    the properties of the specification that concern them.

    Conventions.
    - A Python [str] is a [string]; Python's [None] is [None], so an
      [Optional[str]] is an [option string].
    - A stored document ([Dict[str, Any]]) is a [gmap string (option string)]:
      a key is either missing, or bound to [None], or bound to a text
      (the persisted layout keeps every field as text or null).
    - An exception is a value of [exn]; a computation that may raise has
      type [result A]; a handler, which also reads and writes the two
      collections, has type [handler A] and returns the store as it is at
      the point where it returned or raised.
    - The clock and the random identifier are read by the caller and passed
      in: [clock] is the current UTC instant, [uuid] the text of [uuid4()]. *)

From Stdlib Require Import ZArith Lia Permutation Ascii String.
From stdpp Require Import gmap strings list fin_maps.

Open Scope Z_scope.

(** ** Exceptions and the two monads *)

Inductive exn : Type :=
| HTTPException (status_code : Z) (detail : string)
| KeyError (key : string)
| TypeError
| AttributeError
| DuplicateKeyError.

Inductive result (A : Type) : Type :=
| Ok (a : A)
| Raise (e : exn).
Arguments Ok {A} a.
Arguments Raise {A} e.

#[global] Instance result_ret : MRet result := fun _ a => Ok a.
#[global] Instance result_bind : MBind result := fun _ _ f m =>
  match m with
  | Ok a => f a
  | Raise e => Raise e
  end.

(** The names the specification gives to the HTTP errors of the module. *)
Definition MissingField (field_name : string) : exn :=
  HTTPException 400 (field_name +:+ " is required").
Definition InvalidDate (field_name : string) : exn :=
  HTTPException 400 (field_name +:+ " must be a valid ISO date").
Definition InvalidRange : exn :=
  HTTPException 400 "start_date must be before expiration_date".
Definition EmptyMessage : exn :=
  HTTPException 400 "message must not be empty or contain only whitespace".
Definition Unauthorized : exn :=
  HTTPException 401 "Invalid teacher credentials".
Definition NotFound : exn :=
  HTTPException 404 "Announcement not found".

(** ** Text operations used by the module *)

(** [value.replace("Z", "+00:00")]: every occurrence of the one-character
    pattern is replaced, left to right. *)
Fixpoint replace_Z (s : string) : string :=
  match s with
  | EmptyString => EmptyString
  | String c s' =>
      if Ascii.eqb c "Z"%char then "+00:00" +:+ replace_Z s'
      else String c (replace_Z s')
  end.

(** Texts are kept in UTF-8, one [ascii] per byte. [str.isspace] holds of
    the code points U+0009 to U+000D, U+001C to U+0020, U+0085, U+00A0,
    U+1680, U+2000 to U+200A, U+2028, U+2029, U+202F, U+205F and U+3000;
    they are encoded on one, two or three bytes. *)
Definition byte_is (c : ascii) (n : N) : bool := N.eqb (N_of_ascii c) n.

(** The white space of one byte: U+0009 to U+000D and U+001C to U+0020. *)
Definition isspace (c : ascii) : bool :=
  let n := N_of_ascii c in
  ((9 <=? n) && (n <=? 13) || (28 <=? n) && (n <=? 32))%N.

(** The white space of two bytes: U+0085 and U+00A0. *)
Definition isspace2 (c1 c2 : ascii) : bool :=
  byte_is c1 194 && (byte_is c2 133 || byte_is c2 160).

(** The white space of three bytes: U+1680, U+2000 to U+200A, U+2028,
    U+2029, U+202F, U+205F and U+3000. *)
Definition isspace3 (c1 c2 c3 : ascii) : bool :=
  let n := N_of_ascii c3 in
  byte_is c1 225 && byte_is c2 154 && byte_is c3 128
  || byte_is c1 226 && byte_is c2 128
     && ((128 <=? n) && (n <=? 138) || byte_is c3 168 || byte_is c3 169
         || byte_is c3 175)%N
  || byte_is c1 226 && byte_is c2 129 && byte_is c3 159
  || byte_is c1 227 && byte_is c2 128 && byte_is c3 128.

(** The text starts with a white-space character. *)
Definition starts_with_space (s : string) : bool :=
  match s with
  | EmptyString => false
  | String c1 s1 =>
      isspace c1
      || match s1 with
         | EmptyString => false
         | String c2 s2 =>
             isspace2 c1 c2
             || match s2 with
                | EmptyString => false
                | String c3 _ => isspace3 c1 c2 c3
                end
         end
  end.

(** [str.lstrip()]: the leading white-space characters are dropped. *)
Fixpoint lstrip (s : string) : string :=
  match s with
  | EmptyString => EmptyString
  | String c1 s1 =>
      if isspace c1 then lstrip s1
      else
        match s1 with
        | EmptyString => s
        | String c2 s2 =>
            if isspace2 c1 c2 then lstrip s2
            else
              match s2 with
              | EmptyString => s
              | String c3 s3 => if isspace3 c1 c2 c3 then lstrip s3 else s
              end
        end
  end.

(** The text consists of white-space characters only (or is empty). *)
Fixpoint all_whitespace (s : string) : bool :=
  match s with
  | EmptyString => true
  | String c1 s1 =>
      if isspace c1 then all_whitespace s1
      else
        match s1 with
        | EmptyString => false
        | String c2 s2 =>
            if isspace2 c1 c2 then all_whitespace s2
            else
              match s2 with
              | EmptyString => false
              | String c3 s3 =>
                  if isspace3 c1 c2 c3 then all_whitespace s3 else false
              end
        end
  end.

(** [str.rstrip()]: the text is cut where its white-space tail begins. *)
Fixpoint rstrip (s : string) : string :=
  match s with
  | EmptyString => EmptyString
  | String c s' =>
      if all_whitespace s then EmptyString else String c (rstrip s')
  end.

(** [str.strip()] *)
Definition strip (s : string) : string := rstrip (lstrip s).


(** ** Datetimes *)

(** A [datetime]: the wall-clock reading in microseconds since
    1970-01-01T00:00:00 and, when the value is aware, the offset of its
    [tzinfo] from UTC in microseconds. *)
Record datetime : Type := mkDatetime { wall : Z; tzinfo : option Z }.

Definition timezone_utc : Z := 0.

(** [parsed.replace(tzinfo=tz)] *)
Definition replace_tzinfo (d : datetime) (tz : Z) : datetime :=
  {| wall := wall d; tzinfo := Some tz |}.

(** [datetime.now(timezone.utc)] when the clock reads [clock]. *)
Definition now_utc (clock : Z) : datetime :=
  {| wall := clock; tzinfo := Some timezone_utc |}.

(** The instant an aware datetime denotes; the order of aware datetimes is
    the order of their instants. Every datetime the handlers compare comes
    from [_parse_iso_date] or [now_utc] and is aware. *)
Definition utc_instant (d : datetime) : Z :=
  wall d - default 0 (tzinfo d).

Definition dt_ltb (a b : datetime) : bool := utc_instant a <? utc_instant b.
Definition dt_gtb (a b : datetime) : bool := utc_instant b <? utc_instant a.
Definition dt_geb (a b : datetime) : bool := utc_instant b <=? utc_instant a.
Definition dt_leb (a b : datetime) : bool := utc_instant a <=? utc_instant b.

(** ** Payload, documents and the store *)

(** [class AnnouncementUpsert(BaseModel)] *)
Record AnnouncementUpsert : Type := mkUpsert {
  message : string;
  expiration_date : string;
  start_date : option string
}.


(** [doc.get(key)] *)
Definition dict_get (doc : gmap string (option string)) (key : string)
  : option string :=
  match doc !! key with
  | Some v => v
  | None => None
  end.

(** [doc[key]] *)
Definition dict_item (doc : gmap string (option string)) (key : string)
  : result (option string) :=
  match doc !! key with
  | Some v => Ok v
  | None => Raise (KeyError key)
  end.

Record db : Type := mkDb {
  announcements_collection : list (gmap string (option string));
  teachers_collection : gset string
}.

Definition handler (A : Type) : Type := db -> result A * db.

#[global] Instance handler_ret : MRet handler := fun _ a s => (Ok a, s).
#[global] Instance handler_bind : MBind handler := fun _ _ f m s =>
  match m s with
  | (Ok a, s') => f a s'
  | (Raise e, s') => (Raise e, s')
  end.

Definition raise {A : Type} (e : exn) : handler A := fun s => (Raise e, s).

Definition lift {A : Type} (r : result A) : handler A := fun s => (r, s).

(** ** The two collections

    The module [..database] is not part of the sources at hand; the
    operations the handlers call on its collections are written out here. *)

(** The filter [{"_id": id}]. *)
Definition has_id (id : string) (doc : gmap string (option string)) : bool :=
  bool_decide (doc !! "_id" = Some (Some id)).

(** Modelled from the spec: the document store's [find-one(by id)], which
    [announcements_collection.find_one({"_id": id})] calls; the module
    that defines the collection is missing. *)
Fixpoint find_one (id : string) (docs : list (gmap string (option string)))
  : option (gmap string (option string)) :=
  match docs with
  | [] => None
  | doc :: rest => if has_id id doc then Some doc else find_one id rest
  end.

(** Modelled from the spec: the document store's [insert(doc)], which
    [insert_one] calls; the store keeps [_id] unique ("[id] is unique
    across all records"), so a document whose [_id] is taken is refused. *)
Definition insert_one (doc : gmap string (option string))
    (docs : list (gmap string (option string)))
  : result (list (gmap string (option string))) :=
  if existsb (fun d => bool_decide (d !! "_id" = doc !! "_id")) docs
  then Raise DuplicateKeyError
  else Ok (docs ++ [doc]).

(** Modelled from the spec: the document store's
    [update-fields(by id, fields)], which [update_one(filter, {"$set": updates})]
    calls: the first document with that [_id] gets the fields of [updates],
    its other fields stay. *)
Fixpoint update_one (id : string) (updates : gmap string (option string))
    (docs : list (gmap string (option string)))
  : list (gmap string (option string)) :=
  match docs with
  | [] => []
  | doc :: rest =>
      if has_id id doc then (updates ∪ doc) :: rest
      else doc :: update_one id updates rest
  end.

(** Modelled from the spec: the document store's
    [delete(by id) -> count removed], which [delete_one] calls; the result
    is [deleted_count] and the remaining documents. *)
Fixpoint delete_one (id : string) (docs : list (gmap string (option string)))
  : Z * list (gmap string (option string)) :=
  match docs with
  | [] => (0, [])
  | doc :: rest =>
      if has_id id doc then (1, rest)
      else let '(n, rest') := delete_one id rest in (n, doc :: rest')
  end.

(** The sort key [created_at]: a missing or null value is below every text,
    texts compare as texts. *)
Definition key_leb (a b : option string) : bool :=
  match a, b with
  | None, _ => true
  | Some _, None => false
  | Some x, Some y => String.leb x y
  end.

Definition created_before (d1 d2 : gmap string (option string)) : bool :=
  negb (key_leb (dict_get d2 "created_at") (dict_get d1 "created_at")).

Fixpoint insert_desc (doc : gmap string (option string))
    (sorted : list (gmap string (option string)))
  : list (gmap string (option string)) :=
  match sorted with
  | [] => [doc]
  | x :: rest =>
      if created_before doc x then x :: insert_desc doc rest
      else doc :: sorted
  end.

(** Modelled from the spec: the document store's
    [find-all(sorted by created_at desc)], which [find().sort("created_at", -1)]
    calls: most recent first, records lacking [created_at] last, ties in
    store order. *)
Fixpoint find_sorted (docs : list (gmap string (option string)))
  : list (gmap string (option string)) :=
  match docs with
  | [] => []
  | doc :: rest => insert_desc doc (find_sorted rest)
  end.

(** Modelled from the spec: the credential store's [exists(identity)],
    which [teachers_collection.find_one({"_id": name})] calls; the
    collection is the set of the teachers' [_id]s. *)
Definition teacher_exists (teacher_username : string) (teachers : gset string)
  : bool :=
  bool_decide (teacher_username ∈ teachers).

(** The collection operations as handler steps. *)
Definition announcements_find : handler (list (gmap string (option string))) :=
  fun s => (Ok (find_sorted (announcements_collection s)), s).

Definition announcements_find_one (id : string)
  : handler (option (gmap string (option string))) :=
  fun s => (Ok (find_one id (announcements_collection s)), s).

Definition announcements_insert_one (doc : gmap string (option string))
  : handler unit :=
  fun s =>
    match insert_one doc (announcements_collection s) with
    | Ok docs => (Ok tt, mkDb docs (teachers_collection s))
    | Raise e => (Raise e, s)
    end.

Definition announcements_update_one (id : string)
    (updates : gmap string (option string)) : handler unit :=
  fun s =>
    (Ok tt,
     mkDb (update_one id updates (announcements_collection s))
          (teachers_collection s)).

Definition announcements_delete_one (id : string) : handler Z :=
  fun s =>
    let '(n, docs) := delete_one id (announcements_collection s) in
    (Ok n, mkDb docs (teachers_collection s)).

(** ** The module's functions

    [datetime.fromisoformat] and [datetime.isoformat] belong to the Python
    library; the development is parametric in them. [fromisoformat] returns
    [None] where the library raises [ValueError]. *)

Section Announcements.

Variable fromisoformat : string -> option datetime.
Variable isoformat : datetime -> string.

Definition _parse_iso_date (value : option string) (field_name : string)
    (required : bool) : result (option datetime) :=
  match value with
  | None =>
      if required then Raise (MissingField field_name) else Ok None
  | Some value =>
      match fromisoformat (replace_Z value) with
      | Some parsed =>
          match tzinfo parsed with
          | None => Ok (Some (replace_tzinfo parsed timezone_utc))
          | Some _ => Ok (Some parsed)
          end
      | None => Raise (InvalidDate field_name)
      end
  end.

Definition _serialize (doc : gmap string (option string))
  : result (gmap string (option string)) :=
  id ← dict_item doc "_id";
  message ← dict_item doc "message";
  let start_date := dict_get doc "start_date" in
  expiration_date ← dict_item doc "expiration_date";
  let created_at := dict_get doc "created_at" in
  mret ({[ "id" := id;
           "message" := message;
           "start_date" := start_date;
           "expiration_date" := expiration_date;
           "created_at" := created_at ]} : gmap string (option string)).

Definition _validate_teacher (teacher_username : string) : handler unit :=
  fun s =>
    if teacher_exists teacher_username (teachers_collection s)
    then (Ok tt, s)
    else (Raise Unauthorized, s).

(** The body of the [for doc in docs] loop of [get_active_announcements];
    [active] is the list built so far. A [None] for [expiration_date]
    cannot be compared with [now]. *)
Fixpoint active_loop (now : datetime)
    (docs : list (gmap string (option string)))
    (active : list (gmap string (option string)))
  : result (list (gmap string (option string))) :=
  match docs with
  | [] => Ok active
  | doc :: rest =>
      start_date ← _parse_iso_date (dict_get doc "start_date") "start_date" false;
      expiration_date ←
        _parse_iso_date (dict_get doc "expiration_date") "expiration_date" true;
      match expiration_date with
      | None => Raise TypeError
      | Some expiration_date =>
          if dt_ltb expiration_date now then active_loop now rest active
          else if match start_date with
                  | Some start_date => dt_gtb start_date now
                  | None => false
                  end
          then active_loop now rest active
          else
            item ← _serialize doc;
            active_loop now rest (active ++ [item])
      end
  end.

Definition get_active_announcements (clock : Z)
  : handler (list (gmap string (option string))) :=
  let now := now_utc clock in
  docs ← announcements_find;
  lift (active_loop now docs []).

(** [[_serialize(doc) for doc in docs]] *)
Fixpoint serialize_all (docs : list (gmap string (option string)))
  : result (list (gmap string (option string))) :=
  match docs with
  | [] => Ok []
  | doc :: rest =>
      item ← _serialize doc;
      items ← serialize_all rest;
      mret (item :: items)
  end.

Definition get_all_announcements (teacher_username : string)
  : handler (list (gmap string (option string))) :=
  _validate_teacher teacher_username;;
  docs ← announcements_find;
  lift (serialize_all docs).

(** [if start_date and start_date >= expiration_date: raise ...] *)
Definition check_range (start_date expiration_date : option datetime)
  : result unit :=
  match start_date with
  | None => Ok tt
  | Some s =>
      match expiration_date with
      | None => Raise TypeError
      | Some e => if dt_geb s e then Raise InvalidRange else Ok tt
      end
  end.

(** [expiration_date.isoformat()] *)
Definition isoformat_of (d : option datetime) : result string :=
  match d with
  | Some d => Ok (isoformat d)
  | None => Raise AttributeError
  end.

(** The dictionary [doc] that [create_announcement] builds. *)
Definition new_document (uuid message : string) (start_date : option string)
    (expiration_date created_at : string) : gmap string (option string) :=
  {[ "_id" := Some uuid;
     "message" := Some message;
     "start_date" := start_date;
     "expiration_date" := Some expiration_date;
     "created_at" := Some created_at ]}.

Definition create_announcement (clock : Z) (uuid : string)
    (payload : AnnouncementUpsert) (teacher_username : string)
  : handler (gmap string (option string)) :=
  _validate_teacher teacher_username;;
  start_date ← lift (_parse_iso_date (start_date payload) "start_date" false);
  expiration_date ←
    lift (_parse_iso_date (Some (expiration_date payload)) "expiration_date" true);
  lift (check_range start_date expiration_date);;
  let message := strip (message payload) in
  if String.eqb message "" then raise EmptyMessage
  else
    expiration_text ← lift (isoformat_of expiration_date);
    let doc :=
      new_document uuid message (isoformat <$> start_date) expiration_text
        (isoformat (now_utc clock)) in
    announcements_insert_one doc;;
    lift (_serialize doc).

(** [_serialize(updated)] subscripts [None] when the re-fetch finds
    nothing. *)
Definition serialize_fetched (updated : option (gmap string (option string)))
  : result (gmap string (option string)) :=
  match updated with
  | Some doc => _serialize doc
  | None => Raise TypeError
  end.

(** The dictionary [updates] that [update_announcement] builds. *)
Definition update_fields (message : string) (start_date : option string)
    (expiration_date : string) : gmap string (option string) :=
  {[ "message" := Some message;
     "start_date" := start_date;
     "expiration_date" := Some expiration_date ]}.

Definition update_announcement (announcement_id : string)
    (payload : AnnouncementUpsert) (teacher_username : string)
  : handler (gmap string (option string)) :=
  _validate_teacher teacher_username;;
  existing ← announcements_find_one announcement_id;
  match existing with
  | None => raise NotFound
  | Some _ =>
      start_date ← lift (_parse_iso_date (start_date payload) "start_date" false);
      expiration_date ←
        lift (_parse_iso_date (Some (expiration_date payload))
                "expiration_date" true);
      lift (check_range start_date expiration_date);;
      let message := strip (message payload) in
      if String.eqb message "" then raise EmptyMessage
      else
        expiration_text ← lift (isoformat_of expiration_date);
        let updates :=
          update_fields message (isoformat <$> start_date) expiration_text in
        announcements_update_one announcement_id updates;;
        updated ← announcements_find_one announcement_id;
        lift (serialize_fetched updated)
  end.

Definition delete_announcement (announcement_id : string)
    (teacher_username : string) : handler (gmap string string) :=
  _validate_teacher teacher_username;;
  deleted_count ← announcements_delete_one announcement_id;
  if deleted_count =? 0 then raise NotFound
  else mret ({[ "message" := "Announcement deleted" ]} : gmap string string).

End Announcements.

(** ** A reference instance of the two library functions

    The instance reads and writes the layout the service itself stores,
    [YYYY-MM-DDTHH:MM:SS] followed by nothing or by an offset [+HH:MM] or
    [-HH:MM], and rejects every other text. It is used
    to run the handlers on concrete requests. *)

Module Sample.

Definition digit (c : ascii) : option Z :=
  let n := Z.of_N (N_of_ascii c) in
  if (48 <=? n) && (n <=? 57) then Some (n - 48) else None.

Fixpoint number (cs : list ascii) (acc : Z) : option Z :=
  match cs with
  | [] => Some acc
  | c :: rest =>
      match digit c with
      | Some d => number rest (10 * acc + d)
      | None => None
      end
  end.

Definition is_leap (y : Z) : bool :=
  ((y mod 4 =? 0) && negb (y mod 100 =? 0)) || (y mod 400 =? 0).

Definition days_in_month (y m : Z) : Z :=
  if m =? 2 then (if is_leap y then 29 else 28)
  else if (m =? 4) || (m =? 6) || (m =? 9) || (m =? 11) then 30
  else 31.

(** Days from 1970-01-01 to the given civil date. *)
Definition days_from_civil (y m d : Z) : Z :=
  let y' := if m <=? 2 then y - 1 else y in
  let era := y' / 400 in
  let yoe := y' - era * 400 in
  let mp := if 2 <? m then m - 3 else m + 9 in
  let doy := (153 * mp + 2) / 5 + d - 1 in
  let doe := yoe * 365 + yoe / 4 - yoe / 100 + doy in
  era * 146097 + doe - 719468.

Definition civil_from_days (days : Z) : Z * Z * Z :=
  let z := days + 719468 in
  let era := z / 146097 in
  let doe := z - era * 146097 in
  let yoe := (doe - doe / 1460 + doe / 36524 - doe / 146096) / 365 in
  let doy := doe - (365 * yoe + yoe / 4 - yoe / 100) in
  let mp := (5 * doy + 2) / 153 in
  let d := doy - (153 * mp + 2) / 5 + 1 in
  let m := if mp <? 10 then mp + 3 else mp - 9 in
  let y := yoe + era * 400 in
  ((if m <=? 2 then y + 1 else y), m, d).

Definition is_char (c : ascii) (expected : string) : bool :=
  String.eqb (String c EmptyString) expected.

Definition parse_offset (cs : list ascii) : option (option Z) :=
  match cs with
  | [] => Some None
  | [sign; h1; h2; colon; m1; m2] =>
      if (is_char sign "+" || is_char sign "-") && is_char colon ":" then
        match number [h1; h2] 0, number [m1; m2] 0 with
        | Some h, Some m =>
            if (h <? 24) && (m <? 60) then
              let seconds := h * 3600 + m * 60 in
              Some (Some ((if is_char sign "-" then - seconds else seconds)
                          * 1000000))
            else None
        | _, _ => None
        end
      else None
  | _ => None
  end.

Definition fromisoformat (s : string) : option datetime :=
  match list_ascii_of_string s with
  | y1 :: y2 :: y3 :: y4 :: dash1 :: m1 :: m2 :: dash2 :: d1 :: d2 :: sep
      :: h1 :: h2 :: colon1 :: n1 :: n2 :: colon2 :: s1 :: s2 :: tz =>
      if is_char dash1 "-" && is_char dash2 "-" && is_char sep "T"
         && is_char colon1 ":" && is_char colon2 ":" then
        match number [y1; y2; y3; y4] 0, number [m1; m2] 0,
              number [d1; d2] 0, number [h1; h2] 0, number [n1; n2] 0,
              number [s1; s2] 0, parse_offset tz with
        | Some y, Some m, Some d, Some h, Some n, Some sec, Some offset =>
            if (1 <=? y) && (1 <=? m) && (m <=? 12) && (1 <=? d)
               && (d <=? days_in_month y m) && (h <? 24) && (n <? 60)
               && (sec <? 60) then
              Some {| wall := (days_from_civil y m d * 86400
                               + h * 3600 + n * 60 + sec) * 1000000;
                      tzinfo := offset |}
            else None
        | _, _, _, _, _, _, _ => None
        end
      else None
  | _ => None
  end.

Definition digit_char (n : Z) : ascii := ascii_of_N (Z.to_N (48 + n mod 10)).

Definition pad2 (n : Z) : string :=
  String (digit_char (n / 10)) (String (digit_char n) EmptyString).

Definition pad4 (n : Z) : string := pad2 (n / 100) +:+ pad2 (n mod 100).

Definition pad6 (n : Z) : string :=
  pad2 (n / 10000) +:+ pad2 (n / 100 mod 100) +:+ pad2 (n mod 100).

Definition print_offset (offset : option Z) : string :=
  match offset with
  | None => ""
  | Some o =>
      let seconds := Z.abs o / 1000000 in
      (if o <? 0 then "-" else "+")
      +:+ pad2 (seconds / 3600) +:+ ":" +:+ pad2 (seconds / 60 mod 60)
  end.

Definition isoformat (d : datetime) : string :=
  let seconds := wall d / 1000000 in
  let micro := wall d mod 1000000 in
  let '(y, m, day) := civil_from_days (seconds / 86400) in
  let rest := seconds mod 86400 in
  pad4 y +:+ "-" +:+ pad2 m +:+ "-" +:+ pad2 day +:+ "T"
  +:+ pad2 (rest / 3600) +:+ ":" +:+ pad2 (rest / 60 mod 60) +:+ ":"
  +:+ pad2 (rest mod 60)
  +:+ (if micro =? 0 then "" else "." +:+ pad6 micro)
  +:+ print_offset (tzinfo d).

(** Sample data: one known teacher, a store with an announcement that is
    running and one that has expired, two malformed records, and payloads. *)

Definition clock : Z := 1762182000000000.

Definition teachers : gset string := {[ "mchen" ]}.

Definition exam_doc : gmap string (option string) :=
  new_document "a1" "Exam tomorrow" None "2099-01-01T00:00:00+00:00"
    "2025-10-01T08:00:00+00:00".

Definition past_doc : gmap string (option string) :=
  new_document "a2" "Past event" None "2000-01-01T00:00:00+00:00"
    "2025-10-02T08:00:00+00:00".

Definition store : db := mkDb [exam_doc; past_doc] teachers.

Definition endless_doc : gmap string (option string) :=
  {[ "_id" := Some "a3"; "message" := Some "No end";
     "created_at" := Some "2025-09-01T08:00:00+00:00" ]}.

Definition garbled_doc : gmap string (option string) :=
  {[ "_id" := Some "a4"; "message" := Some "Exam"; "start_date" := Some "soon" ]}.



Definition same_dates : AnnouncementUpsert :=
  {| message := "Open day";
     expiration_date := "2099-01-01T00:00:00Z";
     start_date := Some "2099-01-01T00:00:00Z" |}.

Definition future_window : AnnouncementUpsert :=
  {| message := "Future window";
     expiration_date := "2099-06-01T00:00:00Z";
     start_date := Some "2099-01-01T00:00:00Z" |}.

Definition blank_message : AnnouncementUpsert :=
  {| message := "   ";
     expiration_date := "2099-06-01T00:00:00Z";
     start_date := None |}.

Definition blank_message_bad_date : AnnouncementUpsert :=
  {| message := "   ";
     expiration_date := "tomorrow";
     start_date := None |}.

End Sample.

(** ** Notions the statements use *)

(** What [_serialize] returns for a document that has its three subscripted
    keys. *)
Definition normalized (doc : gmap string (option string))
  : gmap string (option string) :=
  {[ "id" := dict_get doc "_id";
     "message" := dict_get doc "message";
     "start_date" := dict_get doc "start_date";
     "expiration_date" := dict_get doc "expiration_date";
     "created_at" := dict_get doc "created_at" ]}.

(** A document is listed in [result] when its normalized record is there. *)
Definition listed (doc : gmap string (option string))
    (result : list (gmap string (option string))) : Prop :=
  exists item, _serialize doc = Ok item /\ item ∈ result.

(** The window test of the specification: the parsed [expiration_date] is
    not before [now], and [start_date] is absent or its parsed value is not
    after [now]. *)
Definition active_at (fromisoformat : string -> option datetime)
    (now : datetime) (doc : gmap string (option string)) : Prop :=
  (exists e,
     _parse_iso_date fromisoformat (dict_get doc "expiration_date")
       "expiration_date" true = Ok (Some e)
     /\ utc_instant e >= utc_instant now)
  /\ (dict_get doc "start_date" = None
      \/ exists s,
           _parse_iso_date fromisoformat (dict_get doc "start_date")
             "start_date" false = Ok (Some s)
           /\ utc_instant s <= utc_instant now).

(** Both dates of a stored document can be read. *)
Definition dates_readable (fromisoformat : string -> option datetime)
    (doc : gmap string (option string)) : Prop :=
  (exists s,
     _parse_iso_date fromisoformat (dict_get doc "start_date")
       "start_date" false = Ok s)
  /\ (exists e,
        _parse_iso_date fromisoformat (dict_get doc "expiration_date")
          "expiration_date" true = Ok (Some e)).

(** Every stored document has the keys [_serialize] subscripts; the
    documents the handlers write have them. *)
Definition store_wf (docs : list (gmap string (option string))) : Prop :=
  forall doc, doc ∈ docs -> exists item, _serialize doc = Ok item.

(** ** Notions for the behaviour across requests *)

(** No two stored documents have the same [_id]. *)
Definition ids_unique (docs : list (gmap string (option string))) : Prop :=
  NoDup ((fun doc => doc !! "_id") <$> docs).

(** [d1] may stand before [d2] in a listing by [created_at], most recent
    first: the key of [d2] is at most the key of [d1]. *)
Definition newer_first (d1 d2 : gmap string (option string)) : Prop :=
  key_leb (dict_get d2 "created_at") (dict_get d1 "created_at") = true.

Fixpoint contains_Z (s : string) : bool :=
  match s with
  | EmptyString => false
  | String c s' => Ascii.eqb c "Z"%char || contains_Z s'
  end.

(** The requests of the router, with the clock reading and the random
    identifier the handler draws. *)
Inductive request : Type :=
| GetActive (clock : Z)
| GetAll (teacher_username : string)
| Post (clock : Z) (uuid : string) (payload : AnnouncementUpsert)
    (teacher_username : string)
| Put (announcement_id : string) (payload : AnnouncementUpsert)
    (teacher_username : string)
| Delete (announcement_id teacher_username : string).

(** The store after one request, and after a sequence of requests served
    one after the other. *)
Definition serve (fromisoformat : string -> option datetime)
    (isoformat : datetime -> string) (q : request) (s : db) : db :=
  match q with
  | GetActive clock => snd (get_active_announcements fromisoformat clock s)
  | GetAll teacher_username => snd (get_all_announcements teacher_username s)
  | Post clock uuid payload teacher_username =>
      snd (create_announcement fromisoformat isoformat clock uuid payload
             teacher_username s)
  | Put announcement_id payload teacher_username =>
      snd (update_announcement fromisoformat isoformat announcement_id payload
             teacher_username s)
  | Delete announcement_id teacher_username =>
      snd (delete_announcement announcement_id teacher_username s)
  end.

Fixpoint serve_all (fromisoformat : string -> option datetime)
    (isoformat : datetime -> string) (qs : list request) (s : db) : db :=
  match qs with
  | [] => s
  | q :: rest =>
      serve_all fromisoformat isoformat rest
        (serve fromisoformat isoformat q s)
  end.

(** Sample requests for the statements about sequences of calls. *)
Module Scenario.

Definition exam_tomorrow : AnnouncementUpsert :=
  {| message := "  Exam tomorrow ";
     expiration_date := "2099-01-01T00:00:00Z";
     start_date := None |}.

Definition room_change : AnnouncementUpsert :=
  {| message := "Room change";
     expiration_date := "2099-03-01T00:00:00+00:00";
     start_date := Some "2025-01-01T00:00:00" |}.

Definition empty_store : db := mkDb [] Sample.teachers.

Definition day : list request :=
  [ Post Sample.clock "n1" exam_tomorrow "mchen";
    Post Sample.clock "n2" Sample.future_window "mchen";
    Post Sample.clock "n1" room_change "mchen";
    Put "n2" room_change "mchen";
    Put "n9" room_change "mchen";
    Delete "n1" "intruder";
    GetActive Sample.clock;
    Delete "n1" "mchen";
    GetAll "mchen" ].

End Scenario.

(** * Properties *)

(** ** Text *)

Lemma replace_Z_app (s t : string) :
  replace_Z (s +:+ t) = replace_Z s +:+ replace_Z t.
Proof.
  induction s as [|c s IH]; simpl; [reflexivity|].
  rewrite IH. destruct (Ascii.eqb c "Z"); reflexivity.
Qed.

Lemma replace_Z_suffix_Z (s : string) :
  replace_Z (s +:+ "Z") = replace_Z (s +:+ "+00:00").
Proof. rewrite !replace_Z_app. reflexivity. Qed.

Lemma suffix_induction (P : string -> Prop) :
  P EmptyString ->
  (forall c1, P (String c1 EmptyString)) ->
  (forall c1 c2, P (String c2 EmptyString) -> P (String c1 (String c2 EmptyString))) ->
  (forall c1 c2 c3 s, P s -> P (String c3 s) -> P (String c2 (String c3 s)) ->
     P (String c1 (String c2 (String c3 s)))) ->
  forall s, P s.
Proof.
  intros H0 H1 H2 H3.
  assert (forall s, P s /\ (forall c, P (String c s))
                    /\ (forall c c', P (String c (String c' s)))) as H.
  { induction s as [|c s (IH0 & IH1 & IH2)].
    - repeat split; auto.
    - repeat split; auto. }
  intros s. apply H.
Qed.

Lemma lstrip_step (c1 : ascii) (s1 : string) :
  lstrip (String c1 s1) =
  if isspace c1 then lstrip s1
  else
    match s1 with
    | EmptyString => String c1 s1
    | String c2 s2 =>
        if isspace2 c1 c2 then lstrip s2
        else
          match s2 with
          | EmptyString => String c1 s1
          | String c3 s3 =>
              if isspace3 c1 c2 c3 then lstrip s3 else String c1 s1
          end
    end.
Proof. destruct s1 as [|c2 [|c3 s3]]; reflexivity. Qed.

Lemma all_whitespace_step (c1 : ascii) (s1 : string) :
  all_whitespace (String c1 s1) =
  if isspace c1 then all_whitespace s1
  else
    match s1 with
    | EmptyString => false
    | String c2 s2 =>
        if isspace2 c1 c2 then all_whitespace s2
        else
          match s2 with
          | EmptyString => false
          | String c3 s3 =>
              if isspace3 c1 c2 c3 then all_whitespace s3 else false
          end
    end.
Proof. destruct s1 as [|c2 [|c3 s3]]; reflexivity. Qed.

Lemma lstrip_all_whitespace (s : string) :
  all_whitespace (lstrip s) = all_whitespace s.
Proof.
  induction s as [|c1|c1 c2 IH|c1 c2 c3 s IH0 IH1 IH2] using suffix_induction.
  - reflexivity.
  - rewrite lstrip_step, (all_whitespace_step c1).
    destruct (isspace c1) eqn:H1; [reflexivity|].
    now rewrite all_whitespace_step, H1.
  - rewrite lstrip_step, (all_whitespace_step c1).
    destruct (isspace c1) eqn:H1; [exact IH|].
    destruct (isspace2 c1 c2) eqn:H2; [reflexivity|].
    now rewrite all_whitespace_step, H1, H2.
  - rewrite lstrip_step, (all_whitespace_step c1).
    destruct (isspace c1) eqn:H1; [exact IH2|].
    destruct (isspace2 c1 c2) eqn:H2; [exact IH1|].
    destruct (isspace3 c1 c2 c3) eqn:H3; [exact IH0|].
    now rewrite all_whitespace_step, H1, H2, H3.
Qed.

Lemma rstrip_empty_iff (s : string) :
  rstrip s = "" <-> all_whitespace s = true.
Proof.
  destruct s as [|c s]; [simpl; tauto|].
  cbn [rstrip]. destruct (all_whitespace (String c s));
    split; auto; discriminate.
Qed.

Lemma lstrip_fixed (s : string) : starts_with_space s = false -> lstrip s = s.
Proof.
  destruct s as [|c1 [|c2 [|c3 s]]]; cbn [starts_with_space];
    rewrite ?lstrip_step;
    try destruct (isspace c1); try destruct (isspace2 c1 c2);
    try destruct (isspace3 c1 c2 c3); cbn [orb];
    intros H; try discriminate; reflexivity.
Qed.

Lemma lstrip_head (s : string) : starts_with_space (lstrip s) = false.
Proof.
  induction s as [|c1|c1 c2 IH|c1 c2 c3 s IH0 IH1 IH2] using suffix_induction.
  - reflexivity.
  - rewrite lstrip_step. destruct (isspace c1) eqn:H1; [reflexivity|].
    cbn [starts_with_space]. now rewrite H1.
  - rewrite lstrip_step.
    destruct (isspace c1) eqn:H1; [exact IH|].
    destruct (isspace2 c1 c2) eqn:H2; [reflexivity|].
    cbn [starts_with_space]. now rewrite H1, H2.
  - rewrite lstrip_step.
    destruct (isspace c1) eqn:H1; [exact IH2|].
    destruct (isspace2 c1 c2) eqn:H2; [exact IH1|].
    destruct (isspace3 c1 c2 c3) eqn:H3; [exact IH0|].
    cbn [starts_with_space]. now rewrite H1, H2, H3.
Qed.

Lemma append_cons (c : ascii) (a b : string) :
  String c a +:+ b = String c (a +:+ b).
Proof. reflexivity. Qed.

Lemma append_empty (b : string) : "" +:+ b = b.
Proof. reflexivity. Qed.

Lemma starts_with_space_app (a b : string) :
  starts_with_space a = true -> starts_with_space (a +:+ b) = true.
Proof.
  destruct a as [|c1 [|c2 [|c3 a]]]; destruct b as [|b1 [|b2 b]];
    rewrite ?append_cons, ?append_empty; cbn [starts_with_space];
    try destruct (isspace c1); try destruct (isspace2 c1 c2);
    try destruct (isspace3 c1 c2 c3); cbn [orb];
    intros H; try discriminate; reflexivity.
Qed.

Lemma all_whitespace_app (a b : string) :
  all_whitespace a = true ->
  all_whitespace (a +:+ b) = all_whitespace b.
Proof.
  induction a as [|c1|c1 c2 IH|c1 c2 c3 a IH0 IH1 IH2] using suffix_induction;
    rewrite ?append_cons, ?append_empty in *.
  - reflexivity.
  - rewrite !(all_whitespace_step c1).
    destruct (isspace c1); [reflexivity|discriminate].
  - rewrite !(all_whitespace_step c1).
    destruct (isspace c1); [exact IH|].
    destruct (isspace2 c1 c2); [reflexivity|discriminate].
  - rewrite !(all_whitespace_step c1).
    destruct (isspace c1); [exact IH2|].
    destruct (isspace2 c1 c2); [exact IH1|].
    destruct (isspace3 c1 c2 c3); [exact IH0|discriminate].
Qed.

Lemma rstrip_split (s : string) :
  exists w, s = rstrip s +:+ w /\ all_whitespace w = true.
Proof.
  induction s as [|c s (w & Hs & Hw)].
  - exists "". split; reflexivity.
  - cbn [rstrip]. destruct (all_whitespace (String c s)) eqn:H.
    + exists (String c s). split; [reflexivity|exact H].
    + exists w. split; [|exact Hw]. rewrite ?append_cons, ?append_empty. now rewrite <- Hs.
Qed.

Lemma rstrip_idemp (s : string) : rstrip (rstrip s) = rstrip s.
Proof.
  induction s as [|c s IH]; [reflexivity|].
  cbn [rstrip]. destruct (all_whitespace (String c s)) eqn:H; [reflexivity|].
  cbn [rstrip]. rewrite IH.
  destruct (all_whitespace (String c (rstrip s))) eqn:H'; [|reflexivity].
  destruct (rstrip_split s) as (w & Hs & Hw).
  pose proof (all_whitespace_app (String c (rstrip s)) w H') as Happ.
  rewrite ?append_cons, ?append_empty in Happ. rewrite <- Hs in Happ. congruence.
Qed.

Lemma strip_empty_iff (s : string) :
  strip s = "" <-> all_whitespace s = true.
Proof.
  unfold strip. rewrite rstrip_empty_iff, lstrip_all_whitespace. tauto.
Qed.

Lemma strip_trimmed (s : string) :
  lstrip (strip s) = strip s /\ rstrip (strip s) = strip s.
Proof.
  unfold strip. split; [|apply rstrip_idemp].
  apply lstrip_fixed.
  destruct (starts_with_space (rstrip (lstrip s))) eqn:H; [|reflexivity].
  destruct (rstrip_split (lstrip s)) as (w & Hs & _).
  apply (starts_with_space_app _ w) in H. rewrite <- Hs in H.
  now rewrite lstrip_head in H.
Qed.

Lemma strip_eqb_empty (s : string) :
  String.eqb (strip s) "" = all_whitespace s.
Proof.
  destruct (all_whitespace s) eqn:H.
  - apply strip_empty_iff in H. rewrite H. reflexivity.
  - apply String.eqb_neq. intros E. apply strip_empty_iff in E. congruence.
Qed.

(** ** The collections *)

Lemma find_one_split (id : string) (docs : list (gmap string (option string)))
    (d : gmap string (option string)) :
  find_one id docs = Some d ->
  exists l1 l2, docs = l1 ++ d :: l2 /\ find_one id l1 = None
                /\ has_id id d = true.
Proof.
  induction docs as [|x rest IH]; simpl; [discriminate|].
  destruct (has_id id x) eqn:Hx.
  - intros [= <-]. exists [], rest. auto.
  - intros H. destruct (IH H) as (l1 & l2 & -> & Hn & Hd).
    exists (x :: l1), l2. simpl. rewrite Hx. auto.
Qed.

Lemma find_one_None (id : string) (docs : list (gmap string (option string))) :
  find_one id docs = None <-> forall d, d ∈ docs -> has_id id d = false.
Proof.
  induction docs as [|x rest IH]; simpl.
  - split; [intros _ d Hd; inversion Hd | reflexivity].
  - destruct (has_id id x) eqn:Hx.
    + split; [discriminate|]. intros H.
      rewrite (H x) in Hx by constructor. discriminate.
    + rewrite IH. split.
      * intros H d Hd. inversion Hd; subst; auto.
      * intros H d Hd. apply H. now constructor.
Qed.

Lemma find_one_app (id : string) (l1 l2 : list (gmap string (option string))) :
  find_one id (l1 ++ l2) =
  match find_one id l1 with Some d => Some d | None => find_one id l2 end.
Proof.
  induction l1 as [|x l1 IH]; simpl; [reflexivity|].
  destruct (has_id id x); auto.
Qed.

Lemma has_id_union (id : string) (updates doc : gmap string (option string)) :
  updates !! "_id" = None -> has_id id (updates ∪ doc) = has_id id doc.
Proof.
  intros H. unfold has_id. now rewrite lookup_union_r.
Qed.

Lemma update_one_split (id : string) (updates : gmap string (option string))
    (l1 l2 : list (gmap string (option string)))
    (d : gmap string (option string)) :
  find_one id l1 = None -> has_id id d = true ->
  update_one id updates (l1 ++ d :: l2) = l1 ++ (updates ∪ d) :: l2.
Proof.
  intros Hn Hd. induction l1 as [|x l1 IH]; simpl in *.
  - now rewrite Hd.
  - destruct (has_id id x); [discriminate|]. now rewrite IH.
Qed.

Lemma update_one_missing (id : string) (updates : gmap string (option string))
    (docs : list (gmap string (option string))) :
  find_one id docs = None -> update_one id updates docs = docs.
Proof.
  induction docs as [|x rest IH]; simpl; [reflexivity|].
  destruct (has_id id x); [discriminate|]. intros H. now rewrite IH.
Qed.

Lemma find_one_update_one (id : string) (updates : gmap string (option string))
    (docs : list (gmap string (option string)))
    (d : gmap string (option string)) :
  updates !! "_id" = None ->
  find_one id docs = Some d ->
  find_one id (update_one id updates docs) = Some (updates ∪ d).
Proof.
  intros Hu Hf. destruct (find_one_split _ _ _ Hf) as (l1 & l2 & -> & Hn & Hd).
  rewrite update_one_split by assumption.
  rewrite find_one_app, Hn. simpl. now rewrite has_id_union, Hd.
Qed.

Lemma delete_one_split (id : string)
    (l1 l2 : list (gmap string (option string)))
    (d : gmap string (option string)) :
  find_one id l1 = None -> has_id id d = true ->
  delete_one id (l1 ++ d :: l2) = (1, l1 ++ l2).
Proof.
  intros Hn Hd. induction l1 as [|x l1 IH]; simpl in *.
  - now rewrite Hd.
  - destruct (has_id id x); [discriminate|]. now rewrite IH.
Qed.

Lemma delete_one_missing (id : string)
    (docs : list (gmap string (option string))) :
  find_one id docs = None -> delete_one id docs = (0, docs).
Proof.
  induction docs as [|x rest IH]; simpl; [reflexivity|].
  destruct (has_id id x); [discriminate|]. intros H. now rewrite IH.
Qed.

Lemma insert_desc_perm (doc : gmap string (option string))
    (l : list (gmap string (option string))) :
  insert_desc doc l ≡ₚ doc :: l.
Proof.
  induction l as [|x l IH]; simpl; [reflexivity|].
  destruct (created_before doc x); [|reflexivity].
  rewrite IH. apply perm_swap.
Qed.

Lemma find_sorted_perm (docs : list (gmap string (option string))) :
  find_sorted docs ≡ₚ docs.
Proof.
  induction docs as [|x l IH]; simpl; [reflexivity|].
  now rewrite insert_desc_perm, IH.
Qed.

Lemma find_sorted_elem (docs : list (gmap string (option string)))
    (d : gmap string (option string)) :
  d ∈ find_sorted docs <-> d ∈ docs.
Proof. now rewrite find_sorted_perm. Qed.

(** ** Serialization *)

Lemma dict_get_lookup (doc : gmap string (option string)) (key : string)
    (v : option string) :
  doc !! key = Some v -> dict_get doc key = v.
Proof. unfold dict_get. now intros ->. Qed.

Lemma serialize_Ok (doc : gmap string (option string)) :
  is_Some (doc !! "_id") -> is_Some (doc !! "message") ->
  is_Some (doc !! "expiration_date") ->
  _serialize doc = Ok (normalized doc).
Proof.
  intros [i Hi] [m Hm] [x Hx]. unfold _serialize, dict_item, normalized.
  rewrite (dict_get_lookup _ _ _ Hi), (dict_get_lookup _ _ _ Hm),
    (dict_get_lookup _ _ _ Hx), Hi, Hm, Hx.
  reflexivity.
Qed.

Lemma serialize_inv (doc item : gmap string (option string)) :
  _serialize doc = Ok item ->
  is_Some (doc !! "_id") /\ is_Some (doc !! "message")
  /\ is_Some (doc !! "expiration_date") /\ item = normalized doc.
Proof.
  intros H.
  assert (is_Some (doc !! "_id") /\ is_Some (doc !! "message")
          /\ is_Some (doc !! "expiration_date")) as (H1 & H2 & H3).
  { unfold _serialize, dict_item in H.
    destruct (doc !! "_id"); [|discriminate].
    destruct (doc !! "message"); [|discriminate].
    destruct (doc !! "expiration_date"); [|discriminate].
    eauto. }
  rewrite serialize_Ok in H by assumption.
  injection H as <-. auto.
Qed.

Lemma normalized_dates (d1 d2 : gmap string (option string)) :
  normalized d1 = normalized d2 ->
  dict_get d1 "_id" = dict_get d2 "_id"
  /\ dict_get d1 "start_date" = dict_get d2 "start_date"
  /\ dict_get d1 "expiration_date" = dict_get d2 "expiration_date".
Proof.
  intros H.
  pose proof (f_equal (fun m => m !! "id") H) as Hi.
  pose proof (f_equal (fun m => m !! "start_date") H) as Hs.
  pose proof (f_equal (fun m => m !! "expiration_date") H) as He.
  unfold normalized in Hi, Hs, He. simplify_map_eq. auto.
Qed.

Lemma normalized_id (doc : gmap string (option string)) :
  normalized doc !! "id" = Some (dict_get doc "_id").
Proof. unfold normalized. now simplify_map_eq. Qed.

Lemma serialize_all_wf (docs : list (gmap string (option string))) :
  store_wf docs -> serialize_all docs = Ok (normalized <$> docs).
Proof.
  induction docs as [|d l IH]; intros Hwf; simpl; [reflexivity|].
  destruct (Hwf d) as [item Hd]; [constructor|].
  apply serialize_inv in Hd as (H1 & H2 & H3 & _).
  rewrite serialize_Ok by assumption. simpl.
  rewrite IH; [reflexivity|].
  intros x Hx. apply Hwf. now constructor.
Qed.

Lemma serialize_all_inv (docs items : list (gmap string (option string))) :
  serialize_all docs = Ok items ->
  store_wf docs /\ items = normalized <$> docs.
Proof.
  revert items. induction docs as [|d l IH]; simpl; intros items H.
  - injection H as <-. split; [|reflexivity]. intros x Hx. inversion Hx.
  - destruct (_serialize d) as [item|] eqn:Hd; [|discriminate]. simpl in H.
    destruct (serialize_all l) as [rest|] eqn:Hl; [|discriminate].
    simpl in H. injection H as <-.
    destruct (IH _ eq_refl) as [Hwf ->].
    pose proof (serialize_inv _ _ Hd) as (_ & _ & _ & ->).
    split; [|reflexivity].
    intros x Hx. inversion Hx; subst; eauto.
Qed.

Lemma store_wf_perm (l1 l2 : list (gmap string (option string))) :
  l1 ≡ₚ l2 -> store_wf l1 -> store_wf l2.
Proof. intros Hp H d Hd. apply H. now rewrite Hp. Qed.

(** ** The date parser *)

Section Properties.

Context (fromisoformat : string -> option datetime).
Context (isoformat : datetime -> string).

Lemma parse_required (value : option string) (field_name : string)
    (r : option datetime) :
  _parse_iso_date fromisoformat value field_name true = Ok r ->
  exists d, r = Some d.
Proof.
  unfold _parse_iso_date. destruct value as [v|]; [|discriminate].
  destruct (fromisoformat (replace_Z v)) as [p|]; [|discriminate].
  destruct (tzinfo p); intros [= <-]; eauto.
Qed.

Lemma parse_aware (value : option string) (field_name : string)
    (required : bool) (d : datetime) :
  _parse_iso_date fromisoformat value field_name required = Ok (Some d) ->
  is_Some (tzinfo d).
Proof.
  unfold _parse_iso_date. destruct value as [v|].
  - destruct (fromisoformat (replace_Z v)) as [p|]; [|discriminate].
    destruct (tzinfo p) eqn:Hp; intros [= <-]; simpl; eauto.
  - destruct required; discriminate.
Qed.

(** C5. The date parser: an absent value gives an empty result when not
    required and the required-field error naming the field when required;
    a text ending in [Z] is read exactly as the same text ending in
    [+00:00]; a text the library reads without an offset gets UTC, one read
    with an offset keeps it; a text the library refuses gives the
    invalid-date error naming the field. *)
Theorem parse_iso_date_contract (field_name : string) (required : bool) :
  _parse_iso_date fromisoformat None field_name false = Ok None
  /\ _parse_iso_date fromisoformat None field_name true
     = Raise (HTTPException 400 (field_name +:+ " is required"))
  /\ (forall s,
        _parse_iso_date fromisoformat (Some (s +:+ "Z")) field_name required
        = _parse_iso_date fromisoformat (Some (s +:+ "+00:00")) field_name
            required)
  /\ (forall s parsed,
        fromisoformat (replace_Z s) = Some parsed ->
        tzinfo parsed = None ->
        _parse_iso_date fromisoformat (Some s) field_name required
        = Ok (Some {| wall := wall parsed; tzinfo := Some timezone_utc |}))
  /\ (forall s parsed offset,
        fromisoformat (replace_Z s) = Some parsed ->
        tzinfo parsed = Some offset ->
        _parse_iso_date fromisoformat (Some s) field_name required
        = Ok (Some parsed))
  /\ (forall s,
        fromisoformat (replace_Z s) = None ->
        _parse_iso_date fromisoformat (Some s) field_name required
        = Raise (HTTPException 400
                   (field_name +:+ " must be a valid ISO date"))).
Proof.
  repeat split.
  - intros s. unfold _parse_iso_date. now rewrite replace_Z_suffix_Z.
  - intros s parsed Hp Htz. unfold _parse_iso_date. now rewrite Hp, Htz.
  - intros s parsed offset Hp Htz. unfold _parse_iso_date.
    now rewrite Hp, Htz.
  - intros s Hp. unfold _parse_iso_date. now rewrite Hp.
Qed.

(** ** Running the handlers *)

Ltac run_handler :=
  unfold create_announcement, update_announcement, delete_announcement,
    get_all_announcements, get_active_announcements, mbind, handler_bind,
    mret, handler_ret, _validate_teacher, lift, raise,
    announcements_insert_one, announcements_update_one,
    announcements_delete_one, announcements_find_one, announcements_find,
    serialize_fetched in *.

Lemma insert_one_inv (doc : gmap string (option string))
    (docs docs' : list (gmap string (option string))) :
  insert_one doc docs = Ok docs' ->
  docs' = docs ++ [doc] /\ forall d, d ∈ docs -> d !! "_id" ≠ doc !! "_id".
Proof.
  unfold insert_one.
  destruct (existsb _ docs) eqn:Hex; [discriminate|].
  intros [= <-]. split; [reflexivity|].
  intros d Hd Heq.
  assert (existsb (fun d => bool_decide (d !! "_id" = doc !! "_id")) docs
          = true) as Hx; [|congruence].
  apply existsb_exists. exists d. split.
  - now apply list_elem_of_In.
  - now apply bool_decide_eq_true.
Qed.

Lemma new_document_serialize (uuid message : string)
    (start_date : option string) (expiration_date created_at : string) :
  _serialize (new_document uuid message start_date expiration_date created_at)
  = Ok {[ "id" := Some uuid;
          "message" := Some message;
          "start_date" := start_date;
          "expiration_date" := Some expiration_date;
          "created_at" := Some created_at ]}.
Proof. reflexivity. Qed.

Lemma update_fields_id (message : string) (start_date : option string)
    (expiration_date : string) :
  update_fields message start_date expiration_date !! "_id" = None.
Proof. reflexivity. Qed.

Lemma update_fields_frame (message : string) (start_date : option string)
    (expiration_date key : string) :
  key ≠ "message" -> key ≠ "start_date" -> key ≠ "expiration_date" ->
  update_fields message start_date expiration_date !! key = None.
Proof.
  intros H1 H2 H3. unfold update_fields. now simplify_map_eq.
Qed.

Lemma updated_serialize (updates doc : gmap string (option string))
    (id : string) :
  has_id id doc = true ->
  is_Some (updates !! "message") ->
  is_Some (updates !! "expiration_date") ->
  _serialize (updates ∪ doc) = Ok (normalized (updates ∪ doc)).
Proof.
  intros Hid Hm He. apply bool_decide_eq_true in Hid.
  apply serialize_Ok.
  - rewrite lookup_union. rewrite Hid. destruct (updates !! "_id"); eauto.
  - apply lookup_union_is_Some. auto.
  - apply lookup_union_is_Some. auto.
Qed.

(** A handler that raises has not touched the store. *)
Lemma create_announcement_Raise (clock : Z) (uuid : string)
    (payload : AnnouncementUpsert) (teacher_username : string) (s s' : db)
    (e : exn) :
  create_announcement fromisoformat isoformat clock uuid payload
    teacher_username s = (Raise e, s') ->
  s' = s.
Proof.
  run_handler. repeat case_match; intros; simplify_eq; auto.
Qed.

Lemma create_announcement_Ok (clock : Z) (uuid : string)
    (payload : AnnouncementUpsert) (teacher_username : string) (s s' : db)
    (r : gmap string (option string)) :
  create_announcement fromisoformat isoformat clock uuid payload
    teacher_username s = (Ok r, s') ->
  exists sd e,
    let doc :=
      new_document uuid (strip (message payload)) (isoformat <$> sd)
        (isoformat e) (isoformat (now_utc clock)) in
    teacher_exists teacher_username (teachers_collection s) = true
    /\ _parse_iso_date fromisoformat (start_date payload) "start_date" false
       = Ok sd
    /\ _parse_iso_date fromisoformat (Some (expiration_date payload))
         "expiration_date" true = Ok (Some e)
    /\ check_range sd (Some e) = Ok tt
    /\ all_whitespace (message payload) = false
    /\ insert_one doc (announcements_collection s)
       = Ok (announcements_collection s ++ [doc])
    /\ s' = mkDb (announcements_collection s ++ [doc]) (teachers_collection s)
    /\ r = normalized doc.
Proof.
  run_handler. rewrite strip_eqb_empty.
  destruct (teacher_exists _ _) eqn:Ht; [|discriminate].
  destruct (_parse_iso_date _ (start_date payload) _ _) as [sd|] eqn:Hs;
    [|discriminate].
  destruct (_parse_iso_date _ (Some _) _ _) as [[e|]|] eqn:He;
    try discriminate.
  2:{ apply parse_required in He as [? ?]. discriminate. }
  destruct (check_range sd (Some e)) as [[]|] eqn:Hr; [|discriminate].
  destruct (all_whitespace (message payload)) eqn:Hw; [discriminate|].
  simpl.
  destruct (insert_one _ _) as [docs'|] eqn:Hi; [|discriminate].
  intros [= <- <-].
  pose proof (insert_one_inv _ _ _ Hi) as [-> _].
  exists sd, e. simpl. repeat split; auto.
Qed.

Lemma update_announcement_Ok (announcement_id : string)
    (payload : AnnouncementUpsert) (teacher_username : string) (s s' : db)
    (r : gmap string (option string)) :
  update_announcement fromisoformat isoformat announcement_id payload
    teacher_username s = (Ok r, s') ->
  exists existing sd e,
    let updates :=
      update_fields (strip (message payload)) (isoformat <$> sd)
        (isoformat e) in
    teacher_exists teacher_username (teachers_collection s) = true
    /\ find_one announcement_id (announcements_collection s) = Some existing
    /\ _parse_iso_date fromisoformat (start_date payload) "start_date" false
       = Ok sd
    /\ _parse_iso_date fromisoformat (Some (expiration_date payload))
         "expiration_date" true = Ok (Some e)
    /\ check_range sd (Some e) = Ok tt
    /\ all_whitespace (message payload) = false
    /\ s' = mkDb (update_one announcement_id updates
                    (announcements_collection s))
                 (teachers_collection s)
    /\ r = normalized (updates ∪ existing).
Proof.
  run_handler. rewrite strip_eqb_empty.
  destruct (teacher_exists _ _) eqn:Ht; [|discriminate].
  destruct (find_one _ _) as [existing|] eqn:Hf; [|discriminate].
  destruct (_parse_iso_date _ (start_date payload) _ _) as [sd|] eqn:Hs;
    [|discriminate].
  destruct (_parse_iso_date _ (Some _) _ _) as [[e|]|] eqn:He;
    try discriminate.
  2:{ apply parse_required in He as [? ?]. discriminate. }
  destruct (check_range sd (Some e)) as [[]|] eqn:Hr; [|discriminate].
  destruct (all_whitespace (message payload)) eqn:Hw; [discriminate|].
  simpl.
  rewrite (find_one_update_one _ _ _ existing) by auto using update_fields_id.
  destruct (find_one_split _ _ _ Hf) as (_ & _ & _ & _ & Hid).
  rewrite (updated_serialize _ _ announcement_id) by (auto; now eexists).
  intros [= <- <-]. exists existing, sd, e. simpl. repeat split; auto.
Qed.

Lemma update_announcement_Raise (announcement_id : string)
    (payload : AnnouncementUpsert) (teacher_username : string) (s s' : db)
    (e : exn) :
  update_announcement fromisoformat isoformat announcement_id payload
    teacher_username s = (Raise e, s') ->
  s' = s.
Proof.
  run_handler. rewrite strip_eqb_empty.
  destruct (teacher_exists _ _) eqn:Ht; [|now intros [= _ <-]].
  destruct (find_one _ _) as [existing|] eqn:Hf; [|now intros [= _ <-]].
  destruct (_parse_iso_date _ (start_date payload) _ _) as [sd|] eqn:Hs;
    [|now intros [= _ <-]].
  destruct (_parse_iso_date _ (Some _) _ _) as [[d|]|] eqn:He;
    [| |now intros [= _ <-]].
  2:{ apply parse_required in He as [? ?]. discriminate. }
  destruct (check_range sd (Some d)) as [[]|] eqn:Hr; [|now intros [= _ <-]].
  destruct (all_whitespace (message payload)) eqn:Hw; [now intros [= _ <-]|].
  simpl.
  rewrite (find_one_update_one _ _ _ existing) by auto using update_fields_id.
  destruct (find_one_split _ _ _ Hf) as (_ & _ & _ & _ & Hid).
  rewrite (updated_serialize _ _ announcement_id) by (auto; now eexists).
  discriminate.
Qed.

Lemma check_range_spec (s e : datetime) :
  check_range (Some s) (Some e)
  = if utc_instant e <=? utc_instant s then Raise InvalidRange else Ok tt.
Proof. reflexivity. Qed.

(** ** Claims about create and update *)

(** C3. A create or update call that raises leaves both collections exactly
    as they were; in particular this holds for the four validation errors
    (required field, invalid date, invalid range, empty message), so no
    insert and no field update precedes a failed validation. *)
Theorem failed_upsert_keeps_store (clock : Z) (uuid announcement_id : string)
    (payload : AnnouncementUpsert) (teacher_username : string) (s : db)
    (e : exn) :
  (fst (create_announcement fromisoformat isoformat clock uuid payload
          teacher_username s) = Raise e ->
   snd (create_announcement fromisoformat isoformat clock uuid payload
          teacher_username s) = s)
  /\ (fst (update_announcement fromisoformat isoformat announcement_id payload
             teacher_username s) = Raise e ->
      snd (update_announcement fromisoformat isoformat announcement_id payload
             teacher_username s) = s).
Proof.
  split; intros H.
  - destruct (create_announcement _ _ _ _ _ _ s) as [r s'] eqn:Hc.
    simpl in *. subst r. eapply create_announcement_Raise, Hc.
  - destruct (update_announcement _ _ _ _ _ s) as [r s'] eqn:Hc.
    simpl in *. subst r. eapply update_announcement_Raise, Hc.
Qed.



(** C7. A successful update replaces, in the first (and, ids being unique,
    only) record with the given id, the fields [message], [start_date] and
    [expiration_date] by the trimmed message and the texts of the parsed
    dates; every other key of that record, among them [_id] and
    [created_at], keeps its value; the records before and after it, and the
    teachers, are unchanged. *)
Theorem update_changes_three_fields (announcement_id : string)
    (payload : AnnouncementUpsert) (teacher_username : string) (s s' : db)
    (r : gmap string (option string)) :
  update_announcement fromisoformat isoformat announcement_id payload
    teacher_username s = (Ok r, s') ->
  exists l1 l2 d d' sd ed,
    announcements_collection s = l1 ++ d :: l2
    /\ announcements_collection s' = l1 ++ d' :: l2
    /\ find_one announcement_id l1 = None
    /\ has_id announcement_id d = true
    /\ teachers_collection s' = teachers_collection s
    /\ _parse_iso_date fromisoformat (start_date payload) "start_date" false
       = Ok sd
    /\ _parse_iso_date fromisoformat (Some (expiration_date payload))
         "expiration_date" true = Ok (Some ed)
    /\ d' !! "message" = Some (Some (strip (message payload)))
    /\ d' !! "start_date" = Some (isoformat <$> sd)
    /\ d' !! "expiration_date" = Some (Some (isoformat ed))
    /\ d' !! "_id" = d !! "_id"
    /\ d' !! "created_at" = d !! "created_at"
    /\ (forall key,
          key ≠ "message" -> key ≠ "start_date" -> key ≠ "expiration_date" ->
          d' !! key = d !! key)
    /\ r = normalized d'.
Proof.
  intros H. apply update_announcement_Ok in H as (d & sd & ed & H).
  cbv zeta in H. destruct H as (Ht & Hf & Hs & He & Hr & Hw & -> & ->).
  destruct (find_one_split _ _ _ Hf) as (l1 & l2 & Hdocs & Hn & Hid).
  exists l1, l2, d, (update_fields (strip (message payload))
                       (isoformat <$> sd) (isoformat ed) ∪ d), sd, ed.
  simpl. rewrite Hdocs, update_one_split by assumption.
  repeat split; auto;
    try (apply lookup_union_Some_l; reflexivity);
    try (apply lookup_union_r; reflexivity).
  intros key H1 H2 H3. apply lookup_union_r.
  now apply update_fields_frame.
Qed.

Lemma parse_Raise (value : option string) (field_name : string)
    (required : bool) (e : exn) :
  _parse_iso_date fromisoformat value field_name required = Raise e ->
  exists detail, e = HTTPException 400 detail.
Proof.
  unfold _parse_iso_date. destruct value as [v|].
  - destruct (fromisoformat (replace_Z v)) as [p|].
    + destruct (tzinfo p); discriminate.
    + intros [= <-]. unfold InvalidDate. eauto.
  - destruct required; [|discriminate]. intros [= <-].
    unfold MissingField. eauto.
Qed.

Lemma update_announcement_errors (announcement_id : string)
    (payload : AnnouncementUpsert) (teacher_username : string) (s : db)
    (e : exn) :
  fst (update_announcement fromisoformat isoformat announcement_id payload
         teacher_username s) = Raise e ->
  exists status_code detail, e = HTTPException status_code detail.
Proof.
  run_handler. rewrite strip_eqb_empty.
  destruct (teacher_exists _ _) eqn:Ht;
    [|intros [= <-]; unfold Unauthorized; eauto].
  destruct (find_one _ _) as [existing|] eqn:Hf;
    [|intros [= <-]; unfold NotFound; eauto].
  destruct (_parse_iso_date _ (start_date payload) _ _) as [sd|] eqn:Hs.
  2:{ intros [= <-]. apply parse_Raise in Hs as [? ->]. eauto. }
  destruct (_parse_iso_date _ (Some _) _ _) as [[d|]|] eqn:He.
  2:{ apply parse_required in He as [? ?]. discriminate. }
  2:{ intros [= <-]. apply parse_Raise in He as [? ->]. eauto. }
  destruct (check_range sd (Some d)) as [[]|] eqn:Hr.
  2:{ intros [= <-]. destruct sd as [sd|]; [|discriminate].
      rewrite check_range_spec in Hr.
      destruct (_ <=? _); [|discriminate]. injection Hr as <-.
      unfold InvalidRange. eauto. }
  destruct (all_whitespace (message payload)) eqn:Hw;
    [intros [= <-]; unfold EmptyMessage; eauto|].
  simpl.
  rewrite (find_one_update_one _ _ _ existing) by auto using update_fields_id.
  destruct (find_one_split _ _ _ Hf) as (_ & _ & _ & _ & Hid).
  rewrite (updated_serialize _ _ announcement_id) by (auto; now eexists).
  discriminate.
Qed.

(** C10. When the record with the given id exists, the field update keeps
    it findable: whatever three fields are written, the re-fetch by the
    same id returns the updated record, never nothing, and that record
    serializes. Hence the update handler never raises the [TypeError] (or a
    [KeyError]) that subscripting a missing document or key would cause. *)
Theorem update_refetch_finds_record (announcement_id : string)
    (payload : AnnouncementUpsert) (teacher_username : string) (s : db)
    (existing : gmap string (option string)) :
  find_one announcement_id (announcements_collection s) = Some existing ->
  (forall message_text start_text expiration_text,
     let updates := update_fields message_text start_text expiration_text in
     find_one announcement_id
       (update_one announcement_id updates (announcements_collection s))
     = Some (updates ∪ existing)
     /\ serialize_fetched (Some (updates ∪ existing))
        = Ok (normalized (updates ∪ existing)))
  /\ fst (update_announcement fromisoformat isoformat announcement_id payload
            teacher_username s) ≠ Raise TypeError
  /\ (forall key,
        fst (update_announcement fromisoformat isoformat announcement_id
               payload teacher_username s) ≠ Raise (KeyError key)).
Proof.
  intros Hf. split; [|split].
  - intros m st ex updates. split.
    + apply find_one_update_one; [reflexivity|assumption].
    + destruct (find_one_split _ _ _ Hf) as (_ & _ & _ & _ & Hid).
      simpl. apply (updated_serialize _ _ announcement_id); auto;
        now eexists.
  - intros H. apply update_announcement_errors in H as (? & ? & ?).
    discriminate.
  - intros key H. apply update_announcement_errors in H as (? & ? & ?).
    discriminate.
Qed.

(** ** Delete *)

(** C9. Delete fails with the unauthorized error, store untouched, when the
    teacher identity is unknown. For a known teacher it fails with the
    not-found error exactly when no record has the id (whatever the store
    holds, so whatever calls came before), and then the store is untouched;
    otherwise it removes the record with that id, keeps the others in place
    and returns the confirmation. *)
Theorem delete_contract (announcement_id teacher_username : string) (s : db) :
  (teacher_exists teacher_username (teachers_collection s) = false ->
   delete_announcement announcement_id teacher_username s
   = (Raise Unauthorized, s))
  /\ (teacher_exists teacher_username (teachers_collection s) = true ->
      (find_one announcement_id (announcements_collection s) = None ->
       delete_announcement announcement_id teacher_username s
       = (Raise NotFound, s))
      /\ (fst (delete_announcement announcement_id teacher_username s)
          = Raise NotFound ->
          find_one announcement_id (announcements_collection s) = None)
      /\ (forall d,
            find_one announcement_id (announcements_collection s) = Some d ->
            exists l1 l2,
              announcements_collection s = l1 ++ d :: l2
              /\ find_one announcement_id l1 = None
              /\ delete_announcement announcement_id teacher_username s
                 = (Ok {[ "message" := "Announcement deleted" ]},
                    mkDb (l1 ++ l2) (teachers_collection s)))).
Proof.
  split; [|intros Ht; split; [|split]].
  - intros Ht. run_handler. now rewrite Ht.
  - intros Hf. run_handler. rewrite Ht, delete_one_missing by assumption.
    simpl. now destruct s.
  - destruct (find_one _ _) as [d|] eqn:Hf; [|reflexivity].
    destruct (find_one_split _ _ _ Hf) as (l1 & l2 & Hdocs & Hn & Hid).
    run_handler. rewrite Ht, Hdocs, delete_one_split by assumption.
    simpl. discriminate.
  - intros d Hf.
    destruct (find_one_split _ _ _ Hf) as (l1 & l2 & Hdocs & Hn & Hid).
    exists l1, l2. repeat split; auto.
    run_handler. rewrite Ht, Hdocs, delete_one_split by assumption.
    reflexivity.
Qed.

(** ** The active listing *)

Lemma active_loop_acc (now : datetime)
    (docs acc : list (gmap string (option string))) :
  active_loop fromisoformat now docs acc =
  match active_loop fromisoformat now docs [] with
  | Ok items => Ok (acc ++ items)
  | Raise e => Raise e
  end.
Proof.
  revert acc. induction docs as [|d l IH]; intros acc; simpl.
  - now rewrite app_nil_r.
  - destruct (_parse_iso_date _ (dict_get d "start_date") _ _) as [sd|];
      simpl; [|reflexivity].
    destruct (_parse_iso_date _ (dict_get d "expiration_date") _ _)
      as [[e|]|]; simpl; try reflexivity.
    destruct (dt_ltb e now); [apply IH|].
    destruct (match sd with Some x => dt_gtb x now | None => false end);
      [apply IH|].
    destruct (_serialize d) as [item|]; simpl; [|reflexivity].
    rewrite (IH (acc ++ [item])), (IH [item]).
    destruct (active_loop _ now l []); [|reflexivity].
    now rewrite <- app_assoc.
Qed.

Lemma parse_optional_None (value : option string) (field_name : string) :
  _parse_iso_date fromisoformat value field_name false = Ok None ->
  value = None.
Proof.
  unfold _parse_iso_date. destruct value as [v|]; [|reflexivity].
  destruct (fromisoformat (replace_Z v)) as [p|]; [|discriminate].
  destruct (tzinfo p); discriminate.
Qed.

(** The two tests of the loop decide the window of the specification. *)
Lemma active_at_tests (now : datetime) (doc : gmap string (option string))
    (sd : option datetime) (e : datetime) :
  _parse_iso_date fromisoformat (dict_get doc "start_date") "start_date" false
  = Ok sd ->
  _parse_iso_date fromisoformat (dict_get doc "expiration_date")
    "expiration_date" true = Ok (Some e) ->
  active_at fromisoformat now doc
  <-> dt_ltb e now = false
      /\ match sd with Some x => dt_gtb x now | None => false end = false.
Proof.
  intros Hs He. unfold active_at, dt_ltb, dt_gtb. rewrite Hs, He. split.
  - intros [(e' & [= <-] & Hge) Hstart]. split; [lia|].
    destruct sd as [x|]; [|reflexivity].
    destruct Hstart as [Hnone | (x' & [= <-] & Hle)]; [|lia].
    rewrite Hnone in Hs. discriminate.
  - intros [Hge Hstart]. split; [exists e; split; [reflexivity|lia]|].
    destruct sd as [x|].
    + right. exists x. split; [reflexivity|lia].
    + left. eapply parse_optional_None, Hs.
Qed.

Lemma active_at_ext (now : datetime) (d1 d2 : gmap string (option string)) :
  dict_get d1 "start_date" = dict_get d2 "start_date" ->
  dict_get d1 "expiration_date" = dict_get d2 "expiration_date" ->
  active_at fromisoformat now d1 -> active_at fromisoformat now d2.
Proof. unfold active_at. now intros -> ->. Qed.

Lemma active_loop_Ok (now : datetime)
    (docs items : list (gmap string (option string))) :
  active_loop fromisoformat now docs [] = Ok items ->
  (forall item, item ∈ items ->
     exists d, d ∈ docs /\ active_at fromisoformat now d
               /\ _serialize d = Ok item)
  /\ (forall d, d ∈ docs -> active_at fromisoformat now d ->
        exists item, _serialize d = Ok item /\ item ∈ items).
Proof.
  revert items. induction docs as [|d l IH]; intros items; simpl.
  - intros [= <-]. split; intros x Hx; now apply elem_of_nil in Hx.
  - destruct (_parse_iso_date _ (dict_get d "start_date") _ _) as [sd|]
      eqn:Hs; simpl; [|discriminate].
    destruct (_parse_iso_date _ (dict_get d "expiration_date") _ _)
      as [[e|]|] eqn:He; simpl; try discriminate.
    pose proof (active_at_tests now d sd e Hs He) as Hact.
    destruct (dt_ltb e now) eqn:H1.
    { intros H. destruct (IH _ H) as [A B]. split.
      - intros item Hi. destruct (A item Hi) as (x & Hx & Hrest).
        exists x. split; [now apply list_elem_of_further|exact Hrest].
      - intros x Hx Hax. apply elem_of_cons in Hx as [->|Hx]; [|eauto].
        apply Hact in Hax as [? _]. discriminate. }
    destruct (match sd with Some x => dt_gtb x now | None => false end)
      eqn:H2.
    { intros H. destruct (IH _ H) as [A B]. split.
      - intros item Hi. destruct (A item Hi) as (x & Hx & Hrest).
        exists x. split; [now apply list_elem_of_further|exact Hrest].
      - intros x Hx Hax. apply elem_of_cons in Hx as [->|Hx]; [|eauto].
        apply Hact in Hax as [_ ?]. discriminate. }
    destruct (_serialize d) as [item|] eqn:Hd; simpl; [|discriminate].
    rewrite active_loop_acc.
    destruct (active_loop _ now l []) as [rest|] eqn:Hl; [|discriminate].
    intros [= <-]. destruct (IH _ eq_refl) as [A B]. split.
    + intros x Hx. apply elem_of_cons in Hx as [->|Hx].
      * exists d. split; [apply list_elem_of_here|].
        split; [apply Hact; auto|exact Hd].
      * destruct (A x Hx) as (y & Hy & Hrest).
        exists y. split; [now apply list_elem_of_further|exact Hrest].
    + intros x Hx Hax. apply elem_of_cons in Hx as [->|Hx].
      * exists item. split; [exact Hd|apply list_elem_of_here].
      * destruct (B x Hx Hax) as (y & Hy & Hin).
        exists y. split; [exact Hy|now apply list_elem_of_further].
Qed.

Lemma active_loop_total (now : datetime)
    (docs acc : list (gmap string (option string))) :
  (forall d, d ∈ docs -> dates_readable fromisoformat d) ->
  store_wf docs ->
  exists items, active_loop fromisoformat now docs acc = Ok items.
Proof.
  revert acc. induction docs as [|d l IH]; intros acc Hdates Hwf; simpl.
  - eauto.
  - destruct (Hdates d) as [[sd Hs] [e He]]; [apply list_elem_of_here|].
    destruct (Hwf d) as [item Hd]; [apply list_elem_of_here|].
    rewrite Hs, He, Hd. simpl.
    assert (forall acc', exists items,
              active_loop fromisoformat now l acc' = Ok items) as Hrest.
    { intros acc'. apply IH.
      - intros x Hx. apply Hdates. now apply list_elem_of_further.
      - intros x Hx. apply Hwf. now apply list_elem_of_further. }
    destruct (dt_ltb e now); [apply Hrest|].
    destruct (match sd with Some x => dt_gtb x now | None => false end);
      apply Hrest.
Qed.

(** C1. When the active listing returns, it has not changed the store, and
    a stored record is listed exactly when its parsed [expiration_date] is
    at or after [now] and its [start_date] is absent or parses to an
    instant at or before [now]; [now] is the one clock reading of the call,
    the same for every record. The listing does return when every stored
    record has readable dates and the keys of a normalized record. *)
Theorem active_listing_window (clock : Z) (s : db) :
  (forall result s',
     get_active_announcements fromisoformat clock s = (Ok result, s') ->
     s' = s
     /\ forall doc, doc ∈ announcements_collection s ->
          (listed doc result <-> active_at fromisoformat (now_utc clock) doc))
  /\ ((forall doc, doc ∈ announcements_collection s ->
         dates_readable fromisoformat doc) ->
      store_wf (announcements_collection s) ->
      exists result,
        get_active_announcements fromisoformat clock s = (Ok result, s)).
Proof.
  split.
  - intros result s'. run_handler. intros [= Hloop <-].
    split; [reflexivity|]. intros doc Hdoc.
    apply active_loop_Ok in Hloop as [A B]. split.
    + intros (item & Hser & Hin).
      destruct (A item Hin) as (d & _ & Hact & Hd).
      apply serialize_inv in Hser as (_ & _ & _ & ->).
      apply serialize_inv in Hd as (_ & _ & _ & Heq).
      apply normalized_dates in Heq as (_ & Hs & He).
      now apply (active_at_ext _ d doc).
    + intros Hact. apply B; [|exact Hact]. now apply find_sorted_elem.
  - intros Hdates Hwf. run_handler.
    destruct (active_loop_total (now_utc clock)
                (find_sorted (announcements_collection s)) [])
      as [items ->]; eauto.
    + intros d Hd. apply Hdates. now apply find_sorted_elem.
    + eapply store_wf_perm; [symmetry; apply find_sorted_perm|exact Hwf].
Qed.




(** ** The store invariant and the full listing *)

Lemma store_wf_nil : store_wf [].
Proof. intros d Hd. now apply elem_of_nil in Hd. Qed.

Lemma store_wf_create (clock : Z) (uuid : string)
    (payload : AnnouncementUpsert) (teacher_username : string) (s s' : db)
    (r : gmap string (option string)) :
  store_wf (announcements_collection s) ->
  create_announcement fromisoformat isoformat clock uuid payload
    teacher_username s = (Ok r, s') ->
  store_wf (announcements_collection s').
Proof.
  intros Hwf H. apply create_announcement_Ok in H as (sd & ed & H).
  cbv zeta in H. destruct H as (_ & _ & _ & _ & _ & _ & -> & _). simpl.
  intros d Hd. apply elem_of_app in Hd as [Hd|Hd]; [now apply Hwf|].
  apply list_elem_of_singleton in Hd as ->.
  rewrite new_document_serialize. eauto.
Qed.

Lemma store_wf_update (announcement_id : string)
    (payload : AnnouncementUpsert) (teacher_username : string) (s s' : db)
    (r : gmap string (option string)) :
  store_wf (announcements_collection s) ->
  update_announcement fromisoformat isoformat announcement_id payload
    teacher_username s = (Ok r, s') ->
  store_wf (announcements_collection s').
Proof.
  intros Hwf H. apply update_announcement_Ok in H as (d & sd & ed & H).
  cbv zeta in H. destruct H as (_ & Hf & _ & _ & _ & _ & -> & _). simpl.
  destruct (find_one_split _ _ _ Hf) as (l1 & l2 & Hdocs & Hn & Hid).
  rewrite Hdocs in *. rewrite update_one_split by assumption.
  intros x Hx. apply elem_of_app in Hx as [Hx|Hx].
  - apply Hwf, elem_of_app. now left.
  - apply elem_of_cons in Hx as [->|Hx].
    + rewrite (updated_serialize _ _ announcement_id) by (auto; now eexists).
      eauto.
    + apply Hwf, elem_of_app. right. now apply list_elem_of_further.
Qed.

Lemma store_wf_delete (announcement_id teacher_username : string)
    (s s' : db) (r : gmap string string) :
  store_wf (announcements_collection s) ->
  delete_announcement announcement_id teacher_username s = (Ok r, s') ->
  store_wf (announcements_collection s').
Proof.
  intros Hwf. run_handler.
  destruct (teacher_exists _ _); [|discriminate].
  destruct (find_one announcement_id (announcements_collection s))
    as [d|] eqn:Hf.
  - destruct (find_one_split _ _ _ Hf) as (l1 & l2 & Hdocs & Hn & Hid).
    rewrite Hdocs in *. rewrite delete_one_split by assumption. simpl.
    intros [= _ <-]. simpl. intros x Hx. apply Hwf.
    apply elem_of_app in Hx as [Hx|Hx]; apply elem_of_app; [now left|].
    right. now apply list_elem_of_further.
  - rewrite delete_one_missing by assumption. discriminate.
Qed.

Lemma get_all_announcements_wf (teacher_username : string) (s : db) :
  teacher_exists teacher_username (teachers_collection s) = true ->
  store_wf (announcements_collection s) ->
  get_all_announcements teacher_username s
  = (Ok (normalized <$> find_sorted (announcements_collection s)), s).
Proof.
  intros Ht Hwf. run_handler. rewrite Ht, serialize_all_wf; [reflexivity|].
  eapply store_wf_perm; [symmetry; apply find_sorted_perm|exact Hwf].
Qed.

(** C8. After a successful create on a store whose records all have the
    keys of a normalized record (the empty store has this property and
    create, update and delete keep it), a list-all call by a known teacher
    returns; the list is the list-all result from before the create with
    the create response added, no earlier item carries the new id, so the
    response occurs exactly once, and the listed item is the response
    itself, with its [message], [start_date] and [expiration_date]. *)
Theorem create_then_list_all (clock : Z) (uuid : string)
    (payload : AnnouncementUpsert) (teacher_username viewer : string)
    (s s' : db) (r : gmap string (option string)) :
  store_wf (announcements_collection s) ->
  create_announcement fromisoformat isoformat clock uuid payload
    teacher_username s = (Ok r, s') ->
  teacher_exists viewer (teachers_collection s') = true ->
  exists before after,
    get_all_announcements viewer s = (Ok before, s)
    /\ get_all_announcements viewer s' = (Ok after, s')
    /\ after ≡ₚ r :: before
    /\ r ∈ after
    /\ r !! "id" = Some (Some uuid)
    /\ (forall item, item ∈ before -> item !! "id" ≠ Some (Some uuid))
    /\ (forall item, item ∈ after ->
          item !! "id" = Some (Some uuid) ->
          item = r
          /\ item !! "message" = r !! "message"
          /\ item !! "start_date" = r !! "start_date"
          /\ item !! "expiration_date" = r !! "expiration_date").
Proof.
  intros Hwf Hc Hv.
  pose proof (store_wf_create _ _ _ _ _ _ _ Hwf Hc) as Hwf'.
  apply create_announcement_Ok in Hc as (sd & ed & Hc). cbv zeta in Hc.
  destruct Hc as (_ & _ & _ & _ & _ & Hins & -> & ->).
  apply insert_one_inv in Hins as [_ Hfresh]. simpl in *.
  set (doc := new_document uuid (strip (message payload)) (isoformat <$> sd)
                (isoformat ed) (isoformat (now_utc clock))) in *.
  assert (forall item,
            item ∈ normalized <$> find_sorted (announcements_collection s) ->
            item !! "id" ≠ Some (Some uuid)) as Hold.
  { intros item Hitem.
    apply list_elem_of_fmap in Hitem as (d & -> & Hd).
    apply (proj1 (find_sorted_elem _ _)) in Hd. rewrite normalized_id.
    intros [= Hid]. apply (Hfresh d Hd).
    unfold dict_get in Hid. destruct (d !! "_id") as [v|]; [|discriminate].
    subst v. reflexivity. }
  assert (normalized <$> find_sorted (announcements_collection s ++ [doc])
          ≡ₚ normalized doc
             :: (normalized <$> find_sorted (announcements_collection s)))
    as Hperm.
  { rewrite !find_sorted_perm, fmap_app. simpl.
    now rewrite Permutation_app_comm. }
  exists (normalized <$> find_sorted (announcements_collection s)),
    (normalized <$> find_sorted (announcements_collection s ++ [doc])).
  split; [apply get_all_announcements_wf; assumption|].
  split; [apply (get_all_announcements_wf viewer (mkDb _ _)); assumption|].
  split; [exact Hperm|].
  split; [rewrite Hperm; apply list_elem_of_here|].
  split; [reflexivity|].
  split; [exact Hold|].
  intros item Hitem Hid. rewrite Hperm in Hitem.
  apply elem_of_cons in Hitem as [->|Hitem]; [auto|].
  now apply Hold in Hitem.
Qed.

End Properties.

(** ** The statements on sample requests *)

Lemma sample_store_wf : store_wf (announcements_collection Sample.store).
Proof.
  intros d Hd. simpl in Hd.
  apply elem_of_cons in Hd as [->|Hd]; [now eexists|].
  apply list_elem_of_singleton in Hd as ->. now eexists.
Qed.

Lemma parse_iso_date_contract_witness :
  _parse_iso_date Sample.fromisoformat (Some "2099-01-01T00:00:00")
    "start_date" false
  = Ok (Some {| wall := 4070908800000000; tzinfo := Some timezone_utc |})
  /\ _parse_iso_date Sample.fromisoformat (Some "2099-01-01T02:00:00+02:00")
       "start_date" false
     = Ok (Some {| wall := 4070916000000000; tzinfo := Some 7200000000 |})
  /\ _parse_iso_date Sample.fromisoformat (Some "tomorrow") "start_date" false
     = Raise (HTTPException 400 "start_date must be a valid ISO date").
Proof.
  destruct (parse_iso_date_contract Sample.fromisoformat "start_date" false)
    as (_ & _ & _ & Hnaive & Haware & Hbad).
  split; [|split].
  - apply (Hnaive "2099-01-01T00:00:00"
             {| wall := 4070908800000000; tzinfo := None |});
      vm_compute; reflexivity.
  - apply (Haware "2099-01-01T02:00:00+02:00" _ 7200000000);
      vm_compute; reflexivity.
  - apply (Hbad "tomorrow"). vm_compute. reflexivity.
Defined.

Lemma active_listing_window_witness :
  get_active_announcements Sample.fromisoformat Sample.clock Sample.store
  = (Ok [normalized Sample.exam_doc], Sample.store)
  /\ (listed Sample.exam_doc [normalized Sample.exam_doc]
      <-> active_at Sample.fromisoformat (now_utc Sample.clock)
            Sample.exam_doc)
  /\ (listed Sample.past_doc [normalized Sample.exam_doc]
      <-> active_at Sample.fromisoformat (now_utc Sample.clock)
            Sample.past_doc).
Proof.
  destruct (active_listing_window Sample.fromisoformat Sample.clock
              Sample.store) as [Hwindow Hreturns].
  destruct (Hwindow [normalized Sample.exam_doc] Sample.store eq_refl)
    as [_ Hiff].
  split; [|split].
  - destruct Hreturns as [result Hresult].
    + intros d Hd. simpl in Hd.
      apply elem_of_cons in Hd as [->|Hd];
        [|apply list_elem_of_singleton in Hd as ->];
        (split; [now eexists|now eexists]).
    + intros d Hd. simpl in Hd.
      apply elem_of_cons in Hd as [->|Hd];
        [|apply list_elem_of_singleton in Hd as ->]; now eexists.
    + reflexivity.
  - apply Hiff. apply list_elem_of_here.
  - apply Hiff. apply list_elem_of_further, list_elem_of_here.
Defined.



Lemma failed_upsert_keeps_store_witness :
  snd (create_announcement Sample.fromisoformat Sample.isoformat Sample.clock
         "b1" Sample.same_dates "mchen" Sample.store) = Sample.store
  /\ snd (update_announcement Sample.fromisoformat Sample.isoformat "a1"
            Sample.blank_message "mchen" Sample.store) = Sample.store.
Proof.
  split.
  - apply (failed_upsert_keeps_store Sample.fromisoformat Sample.isoformat
             Sample.clock "b1" "a1" Sample.same_dates "mchen" Sample.store
             InvalidRange).
    reflexivity.
  - apply (failed_upsert_keeps_store Sample.fromisoformat Sample.isoformat
             Sample.clock "b1" "a1" Sample.blank_message "mchen" Sample.store
             EmptyMessage).
    reflexivity.
Defined.





Lemma update_changes_three_fields_witness :
  exists r s' l1 l2 d d',
    update_announcement Sample.fromisoformat Sample.isoformat "a2"
      Sample.future_window "mchen" Sample.store = (Ok r, s')
    /\ announcements_collection Sample.store = l1 ++ d :: l2
    /\ announcements_collection s' = l1 ++ d' :: l2
    /\ d' !! "_id" = d !! "_id"
    /\ d' !! "created_at" = d !! "created_at"
    /\ d' !! "message" = Some (Some "Future window").
Proof.
  destruct (update_announcement Sample.fromisoformat Sample.isoformat "a2"
              Sample.future_window "mchen" Sample.store) as [[r|e] s']
    eqn:Hrun; [|vm_compute in Hrun; discriminate].
  destruct (update_changes_three_fields Sample.fromisoformat Sample.isoformat
              "a2" Sample.future_window "mchen" Sample.store s' r Hrun)
    as (l1 & l2 & d & d' & sd & ed & H1 & H2 & _ & _ & _ & _ & _ & Hm & _
        & _ & Hid & Hcreated & _).
  exists r, s', l1, l2, d, d'. repeat split; assumption.
Defined.

Lemma create_then_list_all_witness :
  exists r s' before after,
    create_announcement Sample.fromisoformat Sample.isoformat Sample.clock
      "b1" Sample.future_window "mchen" Sample.store = (Ok r, s')
    /\ get_all_announcements "mchen" Sample.store = (Ok before, Sample.store)
    /\ get_all_announcements "mchen" s' = (Ok after, s')
    /\ after ≡ₚ r :: before
    /\ r ∈ after.
Proof.
  destruct (create_announcement Sample.fromisoformat Sample.isoformat
              Sample.clock "b1" Sample.future_window "mchen" Sample.store)
    as [[r|e] s'] eqn:Hrun; [|vm_compute in Hrun; discriminate].
  assert (teacher_exists "mchen" (teachers_collection s') = true) as Hviewer.
  { vm_compute in Hrun. injection Hrun as _ <-. reflexivity. }
  destruct (create_then_list_all Sample.fromisoformat Sample.isoformat
              Sample.clock "b1" Sample.future_window "mchen" "mchen"
              Sample.store s' r sample_store_wf Hrun Hviewer)
    as (before & after & Hb & Ha & Hperm & Hin & _).
  exists r, s', before, after. repeat split; assumption.
Defined.

Lemma delete_contract_witness :
  delete_announcement "a1" "intruder" Sample.store
  = (Raise Unauthorized, Sample.store)
  /\ delete_announcement "zz" "mchen" Sample.store
     = (Raise NotFound, Sample.store)
  /\ find_one "a1" (announcements_collection Sample.store)
     = Some Sample.exam_doc
  /\ exists l1 l2,
       announcements_collection Sample.store = l1 ++ Sample.exam_doc :: l2
       /\ delete_announcement "a1" "mchen" Sample.store
          = (Ok {[ "message" := "Announcement deleted" ]},
             mkDb (l1 ++ l2) (teachers_collection Sample.store)).
Proof.
  split; [|split; [|split]].
  - destruct (delete_contract "a1" "intruder" Sample.store) as [Hunknown _].
    apply Hunknown. reflexivity.
  - destruct (delete_contract "zz" "mchen" Sample.store) as [_ Hknown].
    destruct (Hknown eq_refl) as (Hmissing & _ & _).
    apply Hmissing. reflexivity.
  - destruct (delete_contract "a1" "mchen" Sample.store) as [_ Hknown].
    destruct (Hknown eq_refl) as (_ & Hexact & _).
    destruct (find_one "a1" (announcements_collection Sample.store))
      as [d|] eqn:Hfound; [|vm_compute in Hfound; discriminate].
    vm_compute in Hfound. injection Hfound as <-. reflexivity.
  - destruct (delete_contract "a1" "mchen" Sample.store) as [_ Hknown].
    destruct (Hknown eq_refl) as (_ & _ & Hremove).
    destruct (Hremove Sample.exam_doc eq_refl)
      as (l1 & l2 & Hsplit & _ & Hrun).
    exists l1, l2. split; assumption.
Defined.

Lemma update_refetch_finds_record_witness :
  find_one "a1"
    (update_one "a1"
       (update_fields "Room change" None "2099-06-01T00:00:00+00:00")
       (announcements_collection Sample.store))
  = Some (update_fields "Room change" None "2099-06-01T00:00:00+00:00"
          ∪ Sample.exam_doc)
  /\ fst (update_announcement Sample.fromisoformat Sample.isoformat "a1"
            Sample.future_window "mchen" Sample.store) ≠ Raise TypeError.
Proof.
  destruct (update_refetch_finds_record Sample.fromisoformat Sample.isoformat
              "a1" Sample.future_window "mchen" Sample.store Sample.exam_doc
              eq_refl) as (Hrefetch & Htype & _).
  split; [|exact Htype].
  apply (Hrefetch "Room change" None "2099-06-01T00:00:00+00:00").
Defined.

(** * Further behaviour of the module *)

Ltac unfold_handlers :=
  unfold create_announcement, update_announcement, delete_announcement,
    get_all_announcements, get_active_announcements, mbind, handler_bind,
    mret, handler_ret, _validate_teacher, lift, raise,
    announcements_insert_one, announcements_update_one,
    announcements_delete_one, announcements_find_one, announcements_find,
    serialize_fetched in *.

(** ** Text *)

Lemma replace_Z_no_Z (s : string) : contains_Z (replace_Z s) = false.
Proof.
  induction s as [|c s IH]; simpl; [reflexivity|].
  destruct (Ascii.eqb c "Z") eqn:Hc; simpl; [exact IH|].
  now rewrite Hc, IH.
Qed.

Lemma replace_Z_id (s : string) : contains_Z s = false -> replace_Z s = s.
Proof.
  induction s as [|c s IH]; simpl; [reflexivity|].
  destruct (Ascii.eqb c "Z"); simpl; [discriminate|].
  intros H. now rewrite IH.
Qed.

Lemma normalized_lookups (doc : gmap string (option string)) :
  normalized doc !! "id" = Some (dict_get doc "_id")
  /\ normalized doc !! "message" = Some (dict_get doc "message")
  /\ normalized doc !! "start_date" = Some (dict_get doc "start_date")
  /\ normalized doc !! "expiration_date"
     = Some (dict_get doc "expiration_date")
  /\ normalized doc !! "created_at" = Some (dict_get doc "created_at").
Proof. unfold normalized. repeat split; now simplify_map_eq. Qed.

Lemma existsb_same_id (uuid : string) (doc : gmap string (option string))
    (docs : list (gmap string (option string))) :
  doc !! "_id" = Some (Some uuid) ->
  existsb (fun d => bool_decide (d !! "_id" = doc !! "_id")) docs
  = match find_one uuid docs with Some _ => true | None => false end.
Proof.
  intros Hid. induction docs as [|d l IH]; simpl; [reflexivity|].
  rewrite IH, Hid. unfold has_id.
  destruct (bool_decide (d !! "_id" = Some (Some uuid))); reflexivity.
Qed.

(** ** The serializer *)

(** [_serialize] reads [_id], [message] and [expiration_date] by subscript,
    in that order: the first of them that is missing is the key of the
    [KeyError]. With the three present the result has exactly the five
    keys of a normalized record, and a missing [start_date] or
    [created_at] becomes null. *)
Theorem serialize_missing_keys (doc : gmap string (option string)) :
  (doc !! "_id" = None -> _serialize doc = Raise (KeyError "_id"))
  /\ (is_Some (doc !! "_id") -> doc !! "message" = None ->
      _serialize doc = Raise (KeyError "message"))
  /\ (is_Some (doc !! "_id") -> is_Some (doc !! "message") ->
      doc !! "expiration_date" = None ->
      _serialize doc = Raise (KeyError "expiration_date"))
  /\ (forall item,
        _serialize doc = Ok item ->
        dom item = {[ "id"; "message"; "start_date"; "expiration_date";
                      "created_at" ]}
        /\ (doc !! "start_date" = None -> item !! "start_date" = Some None)
        /\ (doc !! "created_at" = None -> item !! "created_at" = Some None)
        /\ item !! "id" = doc !! "_id"
        /\ item !! "message" = doc !! "message"
        /\ item !! "expiration_date" = doc !! "expiration_date").
Proof.
  split; [|split; [|split]].
  - intros H. unfold _serialize, dict_item. now rewrite H.
  - intros [i Hi] H. unfold _serialize, dict_item. now rewrite Hi, H.
  - intros [i Hi] [m Hm] H. unfold _serialize, dict_item.
    rewrite Hi, Hm. simpl. now rewrite H.
  - intros item H.
    apply serialize_inv in H as ([i Hi] & [m Hm] & [x Hx] & ->).
    destruct (normalized_lookups doc) as (Li & Lm & Ls & Le & Lc).
    rewrite Li, Lm, Ls, Le, Lc. unfold dict_get.
    rewrite Hi, Hm, Hx.
    split; [unfold normalized; set_solver|].
    repeat split; now intros ->.
Qed.

Section Behaviour.

Context (fromisoformat : string -> option datetime).
Context (isoformat : datetime -> string).

(** ** The date parser *)

(** A date the parser returns is always timezone-aware, so the comparisons
    of the handlers never mix naive and aware values: it has the wall time
    the library read, and its instant takes the offset the library read,
    or UTC if there was none. The parser returns nothing only for an
    absent value that is not required. *)
Theorem parsed_dates_are_aware (value : option string) (field_name : string)
    (required : bool) (r : option datetime) :
  _parse_iso_date fromisoformat value field_name required = Ok r ->
  (r = None <-> value = None /\ required = false)
  /\ (forall d, r = Some d ->
        is_Some (tzinfo d)
        /\ exists text parsed,
             value = Some text
             /\ fromisoformat (replace_Z text) = Some parsed
             /\ wall d = wall parsed
             /\ utc_instant d = wall parsed - default 0 (tzinfo parsed)).
Proof.
  unfold _parse_iso_date. destruct value as [text|].
  - destruct (fromisoformat (replace_Z text)) as [parsed|] eqn:Hp;
      [|discriminate].
    destruct (tzinfo parsed) as [offset|] eqn:Hz; intros [= <-].
    + split; [split; [discriminate|intros [? _]; discriminate]|].
      intros d [= <-]. split; [rewrite Hz; eauto|].
      exists text, parsed. unfold utc_instant. now rewrite Hz.
    + split; [split; [discriminate|intros [? _]; discriminate]|].
      intros d [= <-]. split; [simpl; eauto|].
      exists text, parsed. unfold utc_instant. simpl. now rewrite Hz.
  - destruct required; [discriminate|]. intros [= <-].
    split; [tauto|]. discriminate.
Qed.

(** Every [Z] of the text, wherever it stands, is replaced before the
    library reads it: a [Z] in any position is read as [+00:00] there, what
    the library receives contains no [Z], and a text without [Z] reaches
    the library unchanged. *)
Theorem every_Z_is_replaced (before after : string) (field_name : string)
    (required : bool) :
  _parse_iso_date fromisoformat (Some (before +:+ "Z" +:+ after)) field_name
    required
  = _parse_iso_date fromisoformat (Some (before +:+ "+00:00" +:+ after))
      field_name required
  /\ contains_Z (replace_Z (before +:+ "Z" +:+ after)) = false
  /\ (contains_Z before = false ->
      _parse_iso_date fromisoformat (Some before) field_name required
      = match fromisoformat before with
        | Some parsed =>
            Ok (Some (match tzinfo parsed with
                      | Some _ => parsed
                      | None => replace_tzinfo parsed timezone_utc
                      end))
        | None => Raise (InvalidDate field_name)
        end).
Proof.
  split; [|split].
  - unfold _parse_iso_date. now rewrite !replace_Z_app.
  - apply replace_Z_no_Z.
  - intros H. unfold _parse_iso_date. rewrite (replace_Z_id _ H).
    destruct (fromisoformat before) as [parsed|]; [|reflexivity].
    destruct (tzinfo parsed); reflexivity.
Qed.

(** ** The gates in front of validation *)

(** An unknown teacher identity stops list-all, create and update at their
    first line: each fails with the unauthorized error, returns no data and
    leaves the store untouched, whatever the payload and the id are. *)
Theorem unknown_teacher_is_rejected (clock : Z) (uuid announcement_id : string)
    (payload : AnnouncementUpsert) (teacher_username : string) (s : db) :
  teacher_exists teacher_username (teachers_collection s) = false ->
  get_all_announcements teacher_username s = (Raise Unauthorized, s)
  /\ create_announcement fromisoformat isoformat clock uuid payload
       teacher_username s = (Raise Unauthorized, s)
  /\ update_announcement fromisoformat isoformat announcement_id payload
       teacher_username s = (Raise Unauthorized, s).
Proof.
  intros Ht. repeat split; unfold_handlers; now rewrite Ht.
Qed.

(** For a known teacher, update fails with the not-found error exactly when
    no record has the id; the payload is not looked at before that, so this
    holds for invalid payloads too, and the store is untouched. *)
Theorem update_of_unknown_id (announcement_id : string)
    (payload : AnnouncementUpsert) (teacher_username : string) (s : db) :
  teacher_exists teacher_username (teachers_collection s) = true ->
  (find_one announcement_id (announcements_collection s) = None ->
   update_announcement fromisoformat isoformat announcement_id payload
     teacher_username s = (Raise NotFound, s))
  /\ (fst (update_announcement fromisoformat isoformat announcement_id payload
             teacher_username s) = Raise NotFound ->
      find_one announcement_id (announcements_collection s) = None).
Proof.
  intros Ht. split.
  - intros Hf. unfold_handlers. now rewrite Ht, Hf.
  - destruct (find_one _ _) as [existing|] eqn:Hf; [|reflexivity].
    unfold_handlers. rewrite Ht, Hf, strip_eqb_empty.
    destruct (_parse_iso_date _ (start_date payload) _ _) as [sd|] eqn:Hs.
    2:{ intros [= ->]. unfold _parse_iso_date in Hs.
        destruct (start_date payload) as [v|]; [|discriminate].
        destruct (fromisoformat _) as [p|]; [|discriminate].
        destruct (tzinfo p); discriminate. }
    destruct (_parse_iso_date _ (Some _) _ _) as [[d|]|] eqn:He.
    2:{ apply parse_required in He as [? ?]. discriminate. }
    2:{ intros [= ->]. unfold _parse_iso_date in He.
        destruct (fromisoformat _) as [p|]; [|discriminate].
        destruct (tzinfo p); discriminate. }
    destruct (check_range sd (Some d)) as [[]|] eqn:Hr.
    2:{ intros [= ->]. destruct sd as [sd|]; [|discriminate].
        rewrite check_range_spec in Hr.
        destruct (_ <=? _); discriminate. }
    destruct (all_whitespace (message payload)); [discriminate|].
    simpl.
    rewrite (find_one_update_one _ _ _ existing)
      by auto using update_fields_id.
    destruct (find_one_split _ _ _ Hf) as (_ & _ & _ & _ & Hid).
    rewrite (updated_serialize _ _ announcement_id) by (auto; now eexists).
    discriminate.
Qed.

(** ** Create and update on valid requests *)

Lemma check_range_strict (sd : option datetime) (ed : datetime) :
  match sd with
  | Some x => utc_instant x < utc_instant ed
  | None => True
  end ->
  check_range sd (Some ed) = Ok tt.
Proof.
  destruct sd as [x|]; [|reflexivity]. intros H.
  rewrite check_range_spec.
  destruct (Z.leb_spec (utc_instant ed) (utc_instant x)); [lia|reflexivity].
Qed.

Lemma check_range_Ok (sd : option datetime) (ed : datetime) :
  check_range sd (Some ed) = Ok tt ->
  match sd with
  | Some x => utc_instant x < utc_instant ed
  | None => True
  end.
Proof.
  destruct sd as [x|]; [|easy]. rewrite check_range_spec.
  destruct (Z.leb_spec (utc_instant ed) (utc_instant x));
    [discriminate|easy].
Qed.

Lemma create_announcement_run (clock : Z) (uuid : string)
    (payload : AnnouncementUpsert) (teacher_username : string) (s : db)
    (sd : option datetime) (ed : datetime) :
  teacher_exists teacher_username (teachers_collection s) = true ->
  _parse_iso_date fromisoformat (start_date payload) "start_date" false
  = Ok sd ->
  _parse_iso_date fromisoformat (Some (expiration_date payload))
    "expiration_date" true = Ok (Some ed) ->
  check_range sd (Some ed) = Ok tt ->
  all_whitespace (message payload) = false ->
  find_one uuid (announcements_collection s) = None ->
  let doc :=
    new_document uuid (strip (message payload)) (isoformat <$> sd)
      (isoformat ed) (isoformat (now_utc clock)) in
  create_announcement fromisoformat isoformat clock uuid payload
    teacher_username s
  = (Ok (normalized doc),
     mkDb (announcements_collection s ++ [doc]) (teachers_collection s)).
Proof.
  intros Ht Hs He Hr Hw Hf doc. unfold_handlers.
  rewrite Ht, Hs, He, Hr, strip_eqb_empty, Hw. simpl.
  unfold insert_one. rewrite (existsb_same_id uuid) by reflexivity.
  now rewrite Hf.
Qed.

Lemma update_announcement_run (announcement_id : string)
    (payload : AnnouncementUpsert) (teacher_username : string) (s : db)
    (existing : gmap string (option string)) (sd : option datetime)
    (ed : datetime) :
  teacher_exists teacher_username (teachers_collection s) = true ->
  find_one announcement_id (announcements_collection s) = Some existing ->
  _parse_iso_date fromisoformat (start_date payload) "start_date" false
  = Ok sd ->
  _parse_iso_date fromisoformat (Some (expiration_date payload))
    "expiration_date" true = Ok (Some ed) ->
  check_range sd (Some ed) = Ok tt ->
  all_whitespace (message payload) = false ->
  let updates :=
    update_fields (strip (message payload)) (isoformat <$> sd)
      (isoformat ed) in
  update_announcement fromisoformat isoformat announcement_id payload
    teacher_username s
  = (Ok (normalized (updates ∪ existing)),
     mkDb (update_one announcement_id updates (announcements_collection s))
       (teachers_collection s)).
Proof.
  intros Ht Hf Hs He Hr Hw updates. unfold_handlers.
  rewrite Ht, Hf, Hs, He, Hr, strip_eqb_empty, Hw. simpl.
  rewrite (find_one_update_one _ _ _ existing) by auto using update_fields_id.
  destruct (find_one_split _ _ _ Hf) as (_ & _ & _ & _ & Hid).
  now rewrite (updated_serialize _ _ announcement_id) by (auto; now eexists).
Qed.

(** Create succeeds on every request that passes the checks: a known
    teacher, readable dates, a start strictly before the expiration when
    there is one, a message that is not blank, and an identifier no stored
    record has. The response carries the identifier, the trimmed message,
    the texts of the parsed dates (null for an absent start date) and the
    text of the clock reading; the store gains exactly that record, at its
    end, and nothing else changes. *)
Theorem create_succeeds_on_valid_request (clock : Z) (uuid : string)
    (payload : AnnouncementUpsert) (teacher_username : string) (s : db)
    (sd : option datetime) (ed : datetime) :
  teacher_exists teacher_username (teachers_collection s) = true ->
  _parse_iso_date fromisoformat (start_date payload) "start_date" false
  = Ok sd ->
  _parse_iso_date fromisoformat (Some (expiration_date payload))
    "expiration_date" true = Ok (Some ed) ->
  match sd with
  | Some x => utc_instant x < utc_instant ed
  | None => True
  end ->
  all_whitespace (message payload) = false ->
  find_one uuid (announcements_collection s) = None ->
  create_announcement fromisoformat isoformat clock uuid payload
    teacher_username s
  = (Ok {[ "id" := Some uuid;
           "message" := Some (strip (message payload));
           "start_date" := isoformat <$> sd;
           "expiration_date" := Some (isoformat ed);
           "created_at" := Some (isoformat (now_utc clock)) ]},
     mkDb (announcements_collection s
           ++ [ {[ "_id" := Some uuid;
                   "message" := Some (strip (message payload));
                   "start_date" := isoformat <$> sd;
                   "expiration_date" := Some (isoformat ed);
                   "created_at" := Some (isoformat (now_utc clock)) ]} ])
       (teachers_collection s)).
Proof.
  intros Ht Hs He Hlt Hw Hf.
  rewrite (create_announcement_run clock uuid payload teacher_username s sd ed)
    by auto using check_range_strict.
  reflexivity.
Qed.

(** The message a successful create or update stores and returns is the
    trimmed payload message: it is not empty, and trimming it again on
    either side changes nothing. *)
Theorem stored_message_is_trimmed (clock : Z) (uuid announcement_id : string)
    (payload : AnnouncementUpsert) (teacher_username : string) (s s' : db)
    (r : gmap string (option string)) :
  create_announcement fromisoformat isoformat clock uuid payload
    teacher_username s = (Ok r, s')
  \/ update_announcement fromisoformat isoformat announcement_id payload
       teacher_username s = (Ok r, s') ->
  let m := strip (message payload) in
  m ≠ "" /\ lstrip m = m /\ rstrip m = m
  /\ r !! "message" = Some (Some m)
  /\ exists doc,
       doc ∈ announcements_collection s'
       /\ doc !! "message" = Some (Some m)
       /\ _serialize doc = Ok r.
Proof.
  intros H m.
  assert (all_whitespace (message payload) = false
          /\ exists doc, doc ∈ announcements_collection s'
                         /\ doc !! "message" = Some (Some m)
                         /\ _serialize doc = Ok r
                         /\ r = normalized doc) as (Hw & doc & Hin & Hm & Hser & ->).
  { destruct H as [H|H].
    - apply create_announcement_Ok in H as (sd & ed & H). cbv zeta in H.
      destruct H as (_ & _ & _ & _ & Hw & _ & -> & ->).
      split; [exact Hw|]. eexists. simpl.
      split; [apply elem_of_app; right; apply list_elem_of_here|].
      split; [reflexivity|]. split; reflexivity.
    - apply update_announcement_Ok in H as (d & sd & ed & H). cbv zeta in H.
      destruct H as (_ & Hf & _ & _ & _ & Hw & -> & ->).
      split; [exact Hw|].
      destruct (find_one_split _ _ _ Hf) as (l1 & l2 & Hdocs & Hn & Hid).
      eexists. simpl. rewrite Hdocs, update_one_split by assumption.
      split; [apply elem_of_app; right; apply list_elem_of_here|].
      split; [apply lookup_union_Some_l; reflexivity|].
      split; [|reflexivity].
      apply (updated_serialize _ _ announcement_id); auto; now eexists. }
  split.
  { intros E. apply strip_empty_iff in E. congruence. }
  destruct (strip_trimmed (message payload)) as [Hl Hr].
  split; [exact Hl|]. split; [exact Hr|].
  split; [|eauto].
  destruct (normalized_lookups doc) as (_ & -> & _).
  now rewrite (dict_get_lookup _ _ _ Hm).
Qed.

Lemma delete_announcement_run (announcement_id teacher_username : string)
    (known : gset string) (l1 l2 : list (gmap string (option string)))
    (d : gmap string (option string)) :
  teacher_exists teacher_username known = true ->
  find_one announcement_id l1 = None ->
  has_id announcement_id d = true ->
  delete_announcement announcement_id teacher_username
    (mkDb (l1 ++ d :: l2) known)
  = (Ok {[ "message" := "Announcement deleted" ]}, mkDb (l1 ++ l2) known).
Proof.
  intros Ht Hn Hid.
  unfold delete_announcement, mbind, handler_bind, _validate_teacher,
    announcements_delete_one.
  cbn [announcements_collection teachers_collection].
  rewrite Ht.
  cbn [announcements_collection teachers_collection].
  now rewrite delete_one_split by assumption.
Qed.

(** Deleting the record a create has just added gives back the store as it
    was before the create. *)
Theorem create_then_delete_restores (clock : Z) (uuid : string)
    (payload : AnnouncementUpsert) (teacher_username deleter : string)
    (s s' : db) (r : gmap string (option string)) :
  create_announcement fromisoformat isoformat clock uuid payload
    teacher_username s = (Ok r, s') ->
  teacher_exists deleter (teachers_collection s) = true ->
  delete_announcement uuid deleter s'
  = (Ok {[ "message" := "Announcement deleted" ]}, s).
Proof.
  intros H Hd. apply create_announcement_Ok in H as (sd & ed & H).
  cbv zeta in H. destruct H as (_ & _ & _ & _ & _ & Hins & -> & _).
  unfold insert_one in Hins.
  rewrite (existsb_same_id uuid) in Hins by reflexivity.
  destruct (find_one uuid (announcements_collection s)) eqn:Hf;
    [discriminate|].
  rewrite delete_announcement_run;
    [ | assumption | assumption | apply bool_decide_eq_true; reflexivity ].
  rewrite app_nil_r. now destruct s.
Qed.

(** Update is idempotent: repeating a successful update with the same
    payload returns the same record and leaves the store as the first
    update left it. *)
Theorem update_is_idempotent (announcement_id : string)
    (payload : AnnouncementUpsert) (teacher_username : string) (s s' : db)
    (r : gmap string (option string)) :
  update_announcement fromisoformat isoformat announcement_id payload
    teacher_username s = (Ok r, s') ->
  update_announcement fromisoformat isoformat announcement_id payload
    teacher_username s' = (Ok r, s').
Proof.
  intros H. apply update_announcement_Ok in H as (d & sd & ed & H).
  cbv zeta in H. destruct H as (Ht & Hf & Hs & He & Hr & Hw & -> & ->).
  pose proof (update_fields_id (strip (message payload)) (isoformat <$> sd)
                (isoformat ed)) as Hu.
  set (u := update_fields (strip (message payload)) (isoformat <$> sd)
              (isoformat ed)) in *.
  destruct (find_one_split _ _ _ Hf) as (l1 & l2 & Hdocs & Hn & Hid).
  assert (u ∪ (u ∪ d) = u ∪ d) as Hidem.
  { rewrite (assoc_L (∪)). now rewrite (idemp_L (∪) u). }
  assert (update_one announcement_id u (announcements_collection s)
          = l1 ++ (u ∪ d) :: l2) as Hup.
  { rewrite Hdocs. now apply update_one_split. }
  assert (has_id announcement_id (u ∪ d) = true) as Hid'.
  { now rewrite has_id_union. }
  assert (find_one announcement_id (l1 ++ (u ∪ d) :: l2) = Some (u ∪ d))
    as Hf'.
  { rewrite find_one_app, Hn. cbn [find_one]. now rewrite Hid'. }
  rewrite Hup.
  pose proof (update_announcement_run announcement_id payload
                teacher_username
                (mkDb (l1 ++ (u ∪ d) :: l2) (teachers_collection s))
                (u ∪ d) sd ed Ht Hf' Hs He Hr Hw) as Hrun.
  cbv zeta in Hrun.
  cbn [announcements_collection teachers_collection] in Hrun.
  fold u in Hrun. rewrite Hrun, Hidem.
  rewrite update_one_split by assumption. now rewrite Hidem.
Qed.

End Behaviour.

(** ** The further statements on sample requests *)

Lemma serialize_missing_keys_witness :
  _serialize Sample.endless_doc = Raise (KeyError "expiration_date")
  /\ _serialize Sample.garbled_doc = Raise (KeyError "expiration_date")
  /\ normalized Sample.exam_doc !! "start_date" = Some None.
Proof.
  split; [|split].
  - destruct (serialize_missing_keys Sample.endless_doc) as (_ & _ & H & _).
    apply H; [now eexists|now eexists|reflexivity].
  - destruct (serialize_missing_keys Sample.garbled_doc) as (_ & _ & H & _).
    apply H; [now eexists|now eexists|reflexivity].
  - destruct (serialize_missing_keys Sample.exam_doc) as (_ & _ & _ & H).
    destruct (H (normalized Sample.exam_doc) eq_refl) as (_ & _ & _ & _).
    reflexivity.
Defined.

Lemma parsed_dates_are_aware_witness :
  is_Some (tzinfo {| wall := 4070908800000000; tzinfo := Some timezone_utc |}).
Proof.
  destruct (parsed_dates_are_aware Sample.fromisoformat
              (Some "2099-01-01T00:00:00") "start_date" false
              (Some {| wall := 4070908800000000;
                       tzinfo := Some timezone_utc |}) eq_refl)
    as [_ Haware].
  destruct (Haware _ eq_refl) as [Hsome _]. exact Hsome.
Defined.

Lemma every_Z_is_replaced_witness :
  _parse_iso_date Sample.fromisoformat (Some "2099-01-01T00:00:00")
    "expiration_date" true
  = Ok (Some {| wall := 4070908800000000; tzinfo := Some timezone_utc |}).
Proof.
  destruct (every_Z_is_replaced Sample.fromisoformat "2099-01-01T00:00:00"
              "" "expiration_date" true) as (_ & _ & Hplain).
  rewrite Hplain; reflexivity.
Defined.

Lemma unknown_teacher_is_rejected_witness :
  get_all_announcements "intruder" Sample.store
  = (Raise Unauthorized, Sample.store)
  /\ create_announcement Sample.fromisoformat Sample.isoformat Sample.clock
       "n1" Scenario.exam_tomorrow "intruder" Sample.store
     = (Raise Unauthorized, Sample.store).
Proof.
  destruct (unknown_teacher_is_rejected Sample.fromisoformat Sample.isoformat
              Sample.clock "n1" "a1" Scenario.exam_tomorrow "intruder"
              Sample.store eq_refl) as (Hall & Hcreate & _).
  split; assumption.
Defined.

Lemma update_of_unknown_id_witness :
  update_announcement Sample.fromisoformat Sample.isoformat "zz"
    Sample.blank_message_bad_date "mchen" Sample.store
  = (Raise NotFound, Sample.store).
Proof.
  destruct (update_of_unknown_id Sample.fromisoformat Sample.isoformat "zz"
              Sample.blank_message_bad_date "mchen" Sample.store eq_refl)
    as [Hmissing _].
  apply Hmissing. reflexivity.
Defined.

Lemma create_succeeds_on_valid_request_witness :
  fst (create_announcement Sample.fromisoformat Sample.isoformat Sample.clock
         "n1" Scenario.exam_tomorrow "mchen" Sample.store)
  = Ok {[ "id" := Some "n1";
          "message" := Some "Exam tomorrow";
          "start_date" := None;
          "expiration_date" := Some "2099-01-01T00:00:00+00:00";
          "created_at" := Some "2025-11-03T15:00:00+00:00" ]}.
Proof.
  rewrite (create_succeeds_on_valid_request Sample.fromisoformat
             Sample.isoformat Sample.clock "n1" Scenario.exam_tomorrow
             "mchen" Sample.store None
             {| wall := 4070908800000000; tzinfo := Some 0 |});
    reflexivity || exact I.
Defined.

Lemma stored_message_is_trimmed_witness :
  exists r s',
    create_announcement Sample.fromisoformat Sample.isoformat Sample.clock
      "n1" Scenario.exam_tomorrow "mchen" Sample.store = (Ok r, s')
    /\ r !! "message" = Some (Some "Exam tomorrow").
Proof.
  destruct (create_announcement Sample.fromisoformat Sample.isoformat
              Sample.clock "n1" Scenario.exam_tomorrow "mchen" Sample.store)
    as [[r|e] s'] eqn:Hrun; [|vm_compute in Hrun; discriminate].
  destruct (stored_message_is_trimmed Sample.fromisoformat Sample.isoformat
              Sample.clock "n1" "a1" Scenario.exam_tomorrow "mchen"
              Sample.store s' r (or_introl Hrun)) as (_ & _ & _ & Hm & _).
  exists r, s'. split; [reflexivity|exact Hm].
Defined.

Lemma create_then_delete_restores_witness :
  exists r s',
    create_announcement Sample.fromisoformat Sample.isoformat Sample.clock
      "n1" Scenario.exam_tomorrow "mchen" Sample.store = (Ok r, s')
    /\ delete_announcement "n1" "mchen" s'
       = (Ok {[ "message" := "Announcement deleted" ]}, Sample.store).
Proof.
  destruct (create_announcement Sample.fromisoformat Sample.isoformat
              Sample.clock "n1" Scenario.exam_tomorrow "mchen" Sample.store)
    as [[r|e] s'] eqn:Hrun; [|vm_compute in Hrun; discriminate].
  exists r, s'. split; [reflexivity|].
  apply (create_then_delete_restores Sample.fromisoformat Sample.isoformat
           Sample.clock "n1" Scenario.exam_tomorrow "mchen" "mchen"
           Sample.store s' r Hrun).
  reflexivity.
Defined.

Lemma update_is_idempotent_witness :
  exists r s',
    update_announcement Sample.fromisoformat Sample.isoformat "a1"
      Scenario.room_change "mchen" Sample.store = (Ok r, s')
    /\ update_announcement Sample.fromisoformat Sample.isoformat "a1"
         Scenario.room_change "mchen" s' = (Ok r, s').
Proof.
  destruct (update_announcement Sample.fromisoformat Sample.isoformat "a1"
              Scenario.room_change "mchen" Sample.store)
    as [[r|e] s'] eqn:Hrun; [|vm_compute in Hrun; discriminate].
  exists r, s'. split; [reflexivity|].
  apply (update_is_idempotent Sample.fromisoformat Sample.isoformat "a1"
           Scenario.room_change "mchen" Sample.store s' r Hrun).
Defined.
